(** * power_grid_model.core.power_grid_core: the ctypes binding layer

    A shallow embedding of [src/power_grid_model/core/power_grid_core.py].
    The module is glue code: it loads one shared library, derives the native
    typing of every entry point from Python annotations, and wraps each entry
    point in a callable that marshals its arguments.  The embedding keeps that
    shape: Python type objects are an inductive type, the two dictionaries of
    the module are finite maps, and everything that touches the interpreter
    state or the native library runs in a small state-and-exception monad whose
    state records, besides the module global [_CDLL], three traces (libraries
    opened, typing attributes assigned, foreign calls made). *)

From Stdlib Require Import ZArith Strings.Byte.
From stdpp Require Import gmap strings list fin_maps.

#[local] Set Warnings "-clear-no-such-hyp".

Local Open Scope string_scope.
Local Open Scope list_scope.

(** ** Python type objects

    Annotations, ctypes types and the keys and values of [_ARGS_TYPE_MAPPING]
    all live in one universe of Python objects, compared by identity. *)
Inductive pytype : Type :=
| py_str                       (* builtin str *)
| py_int                       (* builtin int *)
| py_float                     (* builtin float *)
| py_None                      (* the object None, as written in [-> None] *)
| py_NoneType                  (* type(None), what Callable[..., None] stores *)
| py_empty                     (* inspect.Parameter.empty: no annotation *)
| c_char_p
| c_double
| c_size_t
| c_void_p
| index_integer (name : string) (* a type object imported from ...core.index_integer *)
| HandlePtr
| OptionsPtr
| ModelPtr
| POINTER (t : pytype).

#[global] Instance pytype_eq_dec : EqDecision pytype.
Proof. solve_decision. Defined.

(** Type objects are hashable: a numbering, for use as dictionary keys. *)
Fixpoint pytype_code (t : pytype) : nat * (nat + string) :=
  match t with
  | py_str => (0, inl 0) | py_int => (0, inl 1) | py_float => (0, inl 2)
  | py_None => (0, inl 3) | py_NoneType => (0, inl 4) | py_empty => (0, inl 5)
  | c_char_p => (0, inl 6) | c_double => (0, inl 7) | c_size_t => (0, inl 8)
  | c_void_p => (0, inl 9) | index_integer name => (0, inr name)
  | HandlePtr => (0, inl 10) | OptionsPtr => (0, inl 11) | ModelPtr => (0, inl 12)
  | POINTER t => let '(d, b) := pytype_code t in (S d, b)
  end.

Fixpoint pytype_decode (d : nat) (b : nat + string) : pytype :=
  match d with
  | S d => POINTER (pytype_decode d b)
  | O =>
      match b with
      | inr name => index_integer name
      | inl 0 => py_str | inl 1 => py_int | inl 2 => py_float | inl 3 => py_None
      | inl 4 => py_NoneType | inl 5 => py_empty | inl 6 => c_char_p
      | inl 7 => c_double | inl 8 => c_size_t | inl 9 => c_void_p
      | inl 10 => HandlePtr | inl 11 => OptionsPtr | inl _ => ModelPtr
      end
  end.

Lemma pytype_decode_code t : pytype_decode (pytype_code t).1 (pytype_code t).2 = t.
Proof.
  induction t as [| | | | | | | | | |name| | | |t IH]; try reflexivity.
  simpl. destruct (pytype_code t) as [d b]. simpl in *. by rewrite IH.
Qed.

#[global] Instance pytype_countable : Countable pytype.
Proof.
  apply (inj_countable' pytype_code (fun p => pytype_decode p.1 p.2)).
  exact pytype_decode_code.
Defined.

(** Modelled from the spec: [power_grid_model.core.index_integer] is not
    among the sources.  [IdxC] is what the spec calls the 64-bit signed
    integer index type; it is taken as a type object of its own, known by
    its name. *)
Definition IdxC : pytype := index_integer "IdxC".

(** Modelled from the spec: [IdC], imported from the same absent module, is
    only ever used under [POINTER]; it is taken as a type object of its own,
    known by its name. *)
Definition IdC : pytype := index_integer "IdC".

(** The pointer types the module declares (lines 17-24). *)
Definition IdxPtr : pytype := POINTER IdxC.
Definition IdxDoublePtr : pytype := POINTER IdxPtr.
Definition IDPtr : pytype := POINTER IdC.
Definition CharDoublePtr : pytype := POINTER c_char_p.
Definition VoidDoublePtr : pytype := POINTER c_void_p.

(** ** The two module-level tables (lines 27-28) *)
Definition _FUNC_SIZE_T_RES : gset string :=
  {[ "meta_class_size"; "meta_class_alignment"; "meta_attribute_offset" ]}.

Definition _ARGS_TYPE_MAPPING : gmap pytype pytype :=
  <[py_str := c_char_p]> (<[py_int := IdxC]> (<[py_float := c_double]> ∅)).

(** [d.get(k, dflt)] of a Python dict. *)
Definition dict_get {K V} `{Countable K} (d : gmap K V) (k : K) (dflt : V) : V :=
  default dflt (d !! k).

(** ** Python string operations used by the module *)

(** [sub in s] on two [str]: [sub] occurs in [s] as a contiguous substring. *)
Fixpoint str_in (sub s : string) : bool :=
  String.prefix sub s ||
  match s with
  | EmptyString => false
  | String _ s' => str_in sub s'
  end.

(** [s.startswith(p)]. *)
Definition startswith (s p : string) : bool := String.prefix p s.

(** The f-string [f"PGM_{name}"]. *)
Definition PGM_ (name : string) : string := "PGM_" +:+ name.

(** ** Python values that cross the boundary *)
Inductive value : Type :=
| VNone
| VStr (s : string)                  (* a str *)
| VBytes (b : list Byte.byte)        (* a bytes object *)
| VInt (z : Z)                       (* an int *)
| VFloat (bits : Z)                  (* a float, kept as its bit pattern; never inspected here *)
| VPtr (t : pytype) (addr : Z).      (* an instance of a ctypes pointer type *)

#[global] Instance byte_eq_dec : EqDecision Byte.byte := Byte.byte_eq_dec.
#[global] Instance value_eq_dec : EqDecision value.
Proof. solve_decision. Defined.

(** ** Exceptions and outcomes *)
Inductive exn : Type :=
| AttributeError (attr : string)
| NameError (name : string)
| TypeError (msg : string)
| IndexError
| OSError (path : string)
| UnicodeError
| NotImplementedError (msg : string)
| ForeignError (code : Z).           (* whatever else a foreign call may raise *)

Inductive outcome (A : Type) : Type :=
| Ok (a : A)
| Raise (e : exn).
Arguments Ok {A} a.
Arguments Raise {A} e.

(** ** The ctypes library object

    A [CDLL] instance caches one function object per exported symbol; the
    attributes [argtypes] and [restype] assigned to a function object stay on
    it.  A symbol absent from [argtypes] (resp. [restype]) has never been
    assigned one. *)
Record CDLL : Type := mkCDLL {
  exports : gset string;
  argtypes : gmap string (list pytype);
  restype : gmap string pytype;
}.

(** One assignment to a typing attribute of a function object. *)
Inductive sig_write : Type :=
| W_argtypes (sym : string) (tys : list pytype)
| W_restype (sym : string) (ty : pytype).

(** One foreign call: the symbol and the positional inputs handed to it. *)
Definition call : Type := string * list value.

(** ** Interpreter state *)
Record world : Type := mkWorld {
  platform_system : string;                 (* platform.system() *)
  shared_libs : gmap string (gset string);  (* the files of Path(__file__).parent that the
                                               OS loader accepts: file name to exported symbols *)
  _CDLL : option CDLL;                      (* the module global; unbound before line 73 *)
  dlopens : list string;                    (* trace: every file given to CDLL(...) *)
  sig_writes : list sig_write;              (* trace: every argtypes / restype assignment *)
  calls : list call;                        (* trace: every foreign call *)
}.

Definition set_CDLL (c : option CDLL) (w : world) : world :=
  mkWorld (platform_system w) (shared_libs w) c
          (dlopens w) (sig_writes w) (calls w).
Definition log_dlopen (p : string) (w : world) : world :=
  mkWorld (platform_system w) (shared_libs w) (_CDLL w)
          (dlopens w ++ [p]) (sig_writes w) (calls w).
Definition log_sig_write (sw : sig_write) (w : world) : world :=
  mkWorld (platform_system w) (shared_libs w) (_CDLL w)
          (dlopens w) (sig_writes w ++ [sw]) (calls w).
Definition log_call (c : call) (w : world) : world :=
  mkWorld (platform_system w) (shared_libs w) (_CDLL w)
          (dlopens w) (sig_writes w) (calls w ++ [c]).

(** ** The state-and-exception monad *)
Definition M (A : Type) : Type := world -> outcome A * world.

Definition ret {A} (a : A) : M A := fun w => (Ok a, w).
Definition raise {A} (e : exn) : M A := fun w => (Raise e, w).
Definition bind {A B} (m : M A) (k : A -> M B) : M B :=
  fun w => match m w with
           | (Ok a, w') => k a w'
           | (Raise e, w') => (Raise e, w')
           end.
Definition lift {A} (o : outcome A) : M A := fun w => (o, w).
(** A step that only transforms the state. *)
Definition update (f : world -> world) : M unit := fun w => (Ok (), f w).

Declare Scope py_scope.
Delimit Scope py_scope with py.
Notation "x <- m ;; k" := (bind m (fun x => k))
  (at level 100, m at next level, right associativity) : py_scope.
Notation "m ;;; k" := (bind m (fun _ => k))
  (at level 100, right associativity) : py_scope.
Local Open Scope py_scope.

(** ** What the module does not define: builtins and the native engine

    [str.encode] and [bytes.decode] are Python's.  The outcome of calling a
    ctypes function object is the engine's, as ctypes hands it back (a value
    already converted by [restype], or whatever exception the call raises,
    ctypes' own argument errors included); it may depend on every call made
    before. *)
Class Runtime : Type := mkRuntime {
  str_encode : string -> outcome (list Byte.byte);
  bytes_decode : list Byte.byte -> outcome string;
  foreign : list call -> string -> list value -> outcome value;
}.

(** ** ctypes primitives *)

(** [CDLL(path)] for a file of the module's directory: one attempt to open
    it, [OSError] when the loader refuses. *)
Definition CDLL_open (file : string) : M CDLL :=
  fun w => match shared_libs w !! file with
           | Some syms => (Ok (mkCDLL syms ∅ ∅), log_dlopen file w)
           | None => (Raise (OSError file), log_dlopen file w)
           end.

(** [getattr(cdll, sym)]: the function object of an exported symbol.  The
    object is cached on the library, so the symbol stands for it. *)
Definition cdll_getattr (c : CDLL) (sym : string) : outcome string :=
  if bool_decide (sym ∈ exports c) then Ok sym else Raise (AttributeError sym).

(** [cdll.<sym>.argtypes = tys] and [cdll.<sym>.restype = ty] on a library
    object held by the caller. *)
Definition assign_argtypes (c : CDLL) (sym : string) (tys : list pytype) : M CDLL :=
  f <- lift (cdll_getattr c sym);;
  update (log_sig_write (W_argtypes f tys));;;
  ret (mkCDLL (exports c) (<[f := tys]> (argtypes c)) (restype c)).

Definition assign_restype (c : CDLL) (sym : string) (ty : pytype) : M CDLL :=
  f <- lift (cdll_getattr c sym);;
  update (log_sig_write (W_restype f ty));;;
  ret (mkCDLL (exports c) (argtypes c) (<[f := ty]> (restype c))).

(** Reading the module global [_CDLL]. *)
Definition global_CDLL : M CDLL :=
  fun w => match _CDLL w with
           | Some c => (Ok c, w)
           | None => (Raise (NameError "_CDLL"), w)
           end.

(** [getattr(_CDLL, sym)]. *)
Definition getattr_CDLL (sym : string) : M string :=
  c <- global_CDLL;; lift (cdll_getattr c sym).

(** [getattr(_CDLL, sym).argtypes = tys]: the object mutated is the one the
    global names. *)
Definition set_argtypes (sym : string) (tys : list pytype) : M unit :=
  c <- global_CDLL;;
  c' <- assign_argtypes c sym tys;;
  update (set_CDLL (Some c')).

Definition set_restype (sym : string) (ty : pytype) : M unit :=
  c <- global_CDLL;;
  c' <- assign_restype c sym ty;;
  update (set_CDLL (Some c')).

(** Calling a function object: the call is made, and its outcome is the
    engine's. *)
Definition cfunc_call {R : Runtime} (f : string) (inputs : list value) : M value :=
  fun w => (foreign (calls w) f inputs, log_call (f, inputs) w).

(** [arg.encode()] and [res.decode()]: only [str] has the first, only
    [bytes] the second. *)
Definition encode {R : Runtime} (arg : value) : outcome value :=
  match arg with
  | VStr s => match str_encode s with Ok b => Ok (VBytes b) | Raise e => Raise e end
  | _ => Raise (AttributeError "encode")
  end.

Definition decode {R : Runtime} (res : value) : outcome value :=
  match res with
  | VBytes b => match bytes_decode b with Ok s => Ok (VStr s) | Raise e => Raise e end
  | _ => Raise (AttributeError "decode")
  end.

(** [platform.system()]. *)
Definition platform_system_call : M string := fun w => (Ok (platform_system w), w).

(** ** [_load_core] (lines 52-69) *)
Definition _load_core : M CDLL :=
  system <- platform_system_call;;
  let dll_file :=
    if decide (system = "Windows") then "_power_grid_core.dll"
    else "_power_grid_core.so" in
  cdll <- CDLL_open dll_file;;
  cdll <- assign_argtypes cdll "PGM_create_handle" [];;
  cdll <- assign_restype cdll "PGM_create_handle" HandlePtr;;
  cdll <- assign_argtypes cdll "PGM_destroy_handle" [HandlePtr];;
  cdll <- assign_restype cdll "PGM_destroy_handle" py_None;;
  ret cdll.

(** ** The session object's state

    An instance of [PowerGridCore] holds [_handle], set by [__new__], and the
    functors that [__init__] attaches by name. *)
Module WrapperFunc.

Record t : Type := mk {
  _cfunc : string;
  _handle : value;
  _name : string;
  _c_argtypes : list pytype;
  _c_restype : pytype;
}.

(** Lines 136-149. *)
Definition __init__ (handle : value) (name : string)
    (c_argtypes : list pytype) (c_restype : pytype) : M t :=
  cfunc <- getattr_CDLL (PGM_ name);;
  ret (mk cfunc handle name c_argtypes c_restype).

(** The loop of lines 156-160 over [zip(args, self._c_argtypes)]. *)
Fixpoint marshal {R : Runtime} (pairs : list (value * pytype)) (c_inputs : list value)
    : outcome (list value) :=
  match pairs with
  | [] => Ok c_inputs
  | (arg, arg_type) :: pairs =>
      if decide (arg_type = c_char_p) then
        match encode arg with
        | Ok b => marshal pairs (c_inputs ++ [b])
        | Raise e => Raise e
        end
      else marshal pairs (c_inputs ++ [arg])
  end.

(** Lines 151-166. *)
Definition __call__ {R : Runtime} (self : t) (args : list value) : M value :=
  let c_inputs := if str_in "destroy" (_name self) then [] else [_handle self] in
  c_inputs <- lift (marshal (zip args (_c_argtypes self)) c_inputs);;
  res <- cfunc_call (_cfunc self) c_inputs;;
  if decide (_c_restype self = c_char_p) then lift (decode res) else ret res.

End WrapperFunc.

(** The instance dictionary of a [PowerGridCore] object. *)
Record PowerGridCore_t : Type := mkPowerGridCore {
  _handle : value;
  attrs : gmap string WrapperFunc.t;
}.

(** [setattr(self, name, functor)]. *)
Definition setattr (self : PowerGridCore_t) (name : string) (wf : WrapperFunc.t)
    : PowerGridCore_t :=
  mkPowerGridCore (_handle self) (<[name := wf]> (attrs self)).

(** ** [make_c_binding] (lines 78-127) *)

(** What [make_c_binding] reads of the function it decorates: its name and
    its [inspect.signature]. *)
Record pyfunc : Type := mkFunc {
  __name__ : string;
  parameters : list (string * pytype);     (* in order, [self] first *)
  return_annotation : pytype;
}.

(** The variables [cbind_func] closes over. *)
Record cbind_closure : Type := mkClosure {
  cb_name : string;
  cb_c_argtypes : list pytype;
  cb_c_restype : pytype;
}.

Definition make_c_binding (func : pyfunc) : M cbind_closure :=
  let name := __name__ func in
  let py_argnames := drop 1 (parameters func).*1 in
  let py_argtypes := drop 1 (parameters func).*2 in
  let py_restype := return_annotation func in
  let c_argtypes := (fun x => dict_get _ARGS_TYPE_MAPPING x x) <$> py_argtypes in
  let c_restype := dict_get _ARGS_TYPE_MAPPING py_restype py_restype in
  let c_restype :=
    if bool_decide (c_restype = IdxC) && bool_decide (name ∈ _FUNC_SIZE_T_RES)
    then c_size_t else c_restype in
  let is_destroy_func := str_in "destroy" name in
  (if is_destroy_func then set_argtypes (PGM_ name) c_argtypes
   else set_argtypes (PGM_ name) (HandlePtr :: c_argtypes));;;
  set_restype (PGM_ name) c_restype;;;
  ret (mkClosure name c_argtypes c_restype).

(** The loop of lines 115-119 over [zip(args, c_argtypes)]. *)
Fixpoint cbind_marshal {R : Runtime} (pairs : list (value * pytype)) (c_inputs : list value)
    : outcome (list value) :=
  match pairs with
  | [] => Ok c_inputs
  | (arg, arg_type) :: pairs =>
      if decide (arg_type = c_char_p) then
        match encode arg with
        | Ok b => cbind_marshal pairs (c_inputs ++ [b])
        | Raise e => Raise e
        end
      else cbind_marshal pairs (c_inputs ++ [arg])
  end.

(** Lines 110-125. *)
Definition cbind_func {R : Runtime} (env : cbind_closure)
    (self : PowerGridCore_t) (args : list value) : M value :=
  let c_inputs := if str_in "destroy" (cb_name env) then [] else [_handle self] in
  c_inputs <- lift (cbind_marshal (zip args (cb_c_argtypes env)) c_inputs);;
  cfunc <- getattr_CDLL (PGM_ (cb_name env));;
  res <- cfunc_call cfunc c_inputs;;
  if decide (cb_c_restype env = c_char_p) then lift (decode res) else ret res.

(** ** [PowerGridCore] (lines 169-328) *)
Module PowerGridCore.

(** A class-level annotation: a [typing.Callable] alias, of which
    [__init__] reads [__args__], or a plain class, which has none. *)
Inductive annotation : Type :=
| GenericAlias (__args__ : list pytype)
| PlainClass (cls : pytype).

(** [Callable[[a1, ..., an], r]]: [__args__] is [(a1, ..., an, r)], with
    [None] stored as [type(None)]. *)
Definition Callable (params : list pytype) (r : pytype) : annotation :=
  GenericAlias (params ++ [if decide (r = py_None) then py_NoneType else r]).

(** Lines 174-189, in the order of the class body. *)
Definition __annotations__ : list (string * annotation) :=
  [ ("_handle", PlainClass HandlePtr);
    ("create_options", Callable [] OptionsPtr);
    ("destroy_options", Callable [OptionsPtr] py_None);
    ("set_calculation_type", Callable [OptionsPtr; py_int] py_None);
    ("set_calculation_method", Callable [OptionsPtr; py_int] py_None);
    ("set_symmetric", Callable [OptionsPtr; py_int] py_None);
    ("set_err_tol", Callable [OptionsPtr; py_float] py_None);
    ("set_max_iter", Callable [OptionsPtr; py_int] py_None);
    ("set_threading", Callable [OptionsPtr; py_int] py_None);
    ("create_model",
     Callable [py_float; py_int; CharDoublePtr; IdxPtr; VoidDoublePtr] ModelPtr);
    ("update_model",
     Callable [ModelPtr; py_int; CharDoublePtr; IdxPtr; VoidDoublePtr] py_None);
    ("copy_model", Callable [ModelPtr] ModelPtr);
    ("get_indexer", Callable [ModelPtr; py_str; py_int; IDPtr; IdxPtr] py_None);
    ("destroy_model", Callable [ModelPtr] py_None) ].

(** Lines 191-194. *)
Definition __new__ {R : Runtime} : M PowerGridCore_t :=
  cfunc <- getattr_CDLL "PGM_create_handle";;
  handle <- cfunc_call cfunc [];;
  ret (mkPowerGridCore handle ∅).

(** One iteration of the loop of lines 197-223. *)
Definition __init__body (self : PowerGridCore_t) (item : string * annotation)
    : M PowerGridCore_t :=
  let '(name, function) := item in
  if startswith name "_" then ret self
  else
    args <- lift (match function with
                  | GenericAlias args => Ok args
                  | PlainClass _ => Raise (AttributeError "__args__")
                  end);;
    let py_argtypes := take (length args - 1) args in
    py_restype <- lift (match last args with
                        | Some r => Ok r
                        | None => Raise IndexError
                        end);;
    let c_argtypes := (fun x => dict_get _ARGS_TYPE_MAPPING x x) <$> py_argtypes in
    let c_restype := dict_get _ARGS_TYPE_MAPPING py_restype py_restype in
    let c_restype :=
      if bool_decide (c_restype = IdxC) && bool_decide (name ∈ _FUNC_SIZE_T_RES)
      then c_size_t else c_restype in
    let c_restype := if decide (c_restype = py_NoneType) then py_None else c_restype in
    let is_destroy_func := str_in "destroy" name in
    (if is_destroy_func then set_argtypes (PGM_ name) c_argtypes
     else set_argtypes (PGM_ name) (HandlePtr :: c_argtypes));;;
    set_restype (PGM_ name) c_restype;;;
    wf <- WrapperFunc.__init__ (_handle self) name c_argtypes c_restype;;
    ret (setattr self name wf).

Fixpoint __init__loop (items : list (string * annotation)) (self : PowerGridCore_t)
    : M PowerGridCore_t :=
  match items with
  | [] => ret self
  | item :: items => self <- __init__body self item;; __init__loop items self
  end.

(** Lines 196-223. *)
Definition __init__ (self : PowerGridCore_t) : M PowerGridCore_t :=
  __init__loop __annotations__ self.

(** Lines 225-226. *)
Definition __del__ {R : Runtime} (self : PowerGridCore_t) : M value :=
  cfunc <- getattr_CDLL "PGM_destroy_handle";;
  cfunc_call cfunc [_handle self].

(** Lines 229-233. *)
Definition __copy__ (self : PowerGridCore_t) : M PowerGridCore_t :=
  raise (NotImplementedError "Class not copyable").

Definition __deepcopy__ (self : PowerGridCore_t) (memodict : gmap Z value)
    : M PowerGridCore_t :=
  raise (NotImplementedError "class not copyable").

(** The decorated methods, lines 235-328: name, parameters, return
    annotation. *)
Definition self_param : string * pytype := ("self", py_empty).

Definition error_code := mkFunc "error_code" [self_param] py_int.
Definition error_message := mkFunc "error_message" [self_param] py_str.
Definition n_failed_scenarios := mkFunc "n_failed_scenarios" [self_param] py_int.
Definition failed_scenarios := mkFunc "failed_scenarios" [self_param] IdxPtr.
Definition batch_errors := mkFunc "batch_errors" [self_param] CharDoublePtr.
Definition clear_error := mkFunc "clear_error" [self_param] py_None.
Definition is_batch_independent := mkFunc "is_batch_independent" [self_param] py_int.
Definition is_batch_cache_topology :=
  mkFunc "is_batch_cache_topology" [self_param] py_int.
Definition meta_n_datasets := mkFunc "meta_n_datasets" [self_param] py_int.
Definition meta_dataset_name :=
  mkFunc "meta_dataset_name" [self_param; ("idx", py_int)] py_str.
Definition meta_n_components :=
  mkFunc "meta_n_components" [self_param; ("dataset", py_str)] py_int.
Definition meta_component_name :=
  mkFunc "meta_component_name" [self_param; ("dataset", py_str); ("idx", py_int)] py_str.
Definition meta_component_alignment :=
  mkFunc "meta_component_alignment"
         [self_param; ("dataset", py_str); ("component", py_str)] py_int.
Definition meta_component_size :=
  mkFunc "meta_component_size"
         [self_param; ("dataset", py_str); ("component", py_str)] py_int.
Definition meta_n_attributes :=
  mkFunc "meta_n_attributes"
         [self_param; ("dataset", py_str); ("component", py_str)] py_int.
Definition meta_attribute_name :=
  mkFunc "meta_attribute_name"
         [self_param; ("dataset", py_str); ("component", py_str); ("idx", py_int)] py_str.
Definition meta_attribute_ctype :=
  mkFunc "meta_attribute_ctype"
         [self_param; ("dataset", py_str); ("component", py_str); ("attribute", py_str)]
         py_str.
Definition meta_attribute_offset :=
  mkFunc "meta_attribute_offset"
         [self_param; ("dataset", py_str); ("component", py_str); ("attribute", py_str)]
         py_int.
Definition is_little_endian := mkFunc "is_little_endian" [self_param] py_int.
Definition calculate :=
  mkFunc "calculate"
         [ self_param; ("model", ModelPtr); ("opt", OptionsPtr);
           ("n_output_components", py_int); ("output_components", CharDoublePtr);
           ("output_data", VoidDoublePtr); ("n_scenarios", py_int);
           ("n_update_components", py_int); ("update_components", CharDoublePtr);
           ("n_component_elements_per_scenario", IdxPtr);
           ("indptrs_per_component", IdxDoublePtr); ("update_data", VoidDoublePtr) ]
         py_None.

Definition decorated : list pyfunc :=
  [ error_code; error_message; n_failed_scenarios; failed_scenarios; batch_errors;
    clear_error; is_batch_independent; is_batch_cache_topology; meta_n_datasets;
    meta_dataset_name; meta_n_components; meta_component_name;
    meta_component_alignment; meta_component_size; meta_n_attributes;
    meta_attribute_name; meta_attribute_ctype; meta_attribute_offset;
    is_little_endian; calculate ].

(** Executing the class body: each decorator runs once, in order, and the
    class dictionary binds the method's name to what it returned. *)
Fixpoint class_body (funcs : list pyfunc) (dict : gmap string cbind_closure)
    : M (gmap string cbind_closure) :=
  match funcs with
  | [] => ret dict
  | func :: funcs =>
      f <- make_c_binding func;;
      class_body funcs (<[__name__ func := f]> dict)
  end.

(** [PowerGridCore()]: [__new__], then [__init__] on what it returned. *)
Definition construct {R : Runtime} : M PowerGridCore_t :=
  instance <- __new__;; __init__ instance.

(** [self.<name>( *args )]: the instance dictionary is searched before the
    functions of the class. *)
Definition call_method {R : Runtime} (dict : gmap string cbind_closure)
    (self : PowerGridCore_t) (name : string) (args : list value) : M value :=
  match attrs self !! name with
  | Some wf => WrapperFunc.__call__ wf args
  | None =>
      match dict !! name with
      | Some f => cbind_func f self args
      | None => raise (AttributeError name)
      end
  end.

End PowerGridCore.

(** ** Importing the module: lines 73, 169-328 and 332, in that order

    The run ends where an exception is raised.  What the interpreter does
    afterwards to a session that [__new__] returned and [__init__] then
    failed on (finalising it, which runs [__del__]) is not part of it. *)
Record module_globals : Type := mkModule {
  PowerGridCore_dict : gmap string cbind_closure;
  power_grid_core : PowerGridCore_t;
}.

Definition import_module {R : Runtime} : M module_globals :=
  cdll <- _load_core;;
  update (set_CDLL (Some cdll));;;
  dict <- PowerGridCore.class_body PowerGridCore.decorated ∅;;
  instance <- PowerGridCore.construct;;
  ret (mkModule dict instance).

(** ** A concrete runtime and library, for running the model

    Text restricted to one byte per character is encoded and decoded
    bytewise; the engine hands out the handle [0x1000], answers text for the
    queries that return text, and otherwise counts the calls made so far. *)
Definition demo_foreign (log : list call) (f : string) (inputs : list value)
    : outcome value :=
  if decide (f = "PGM_create_handle") then Ok (VPtr HandlePtr 4096)
  else if decide (f = "PGM_destroy_handle") then Ok VNone
  else if decide (f = "PGM_error_message") then Ok (VBytes (String.list_byte_of_string "ok"))
  else if decide (f = "PGM_meta_dataset_name") then Ok (VBytes (String.list_byte_of_string "input"))
  else Ok (VInt (Z.of_nat (length log))).

Definition demo_runtime : Runtime :=
  mkRuntime (fun s => Ok (String.list_byte_of_string s))
            (fun b => Ok (String.string_of_list_byte b))
            demo_foreign.

Definition demo_symbols : gset string :=
  list_to_set
    (["PGM_create_handle"; "PGM_destroy_handle"]
       ++ (PGM_ ∘ __name__ <$> PowerGridCore.decorated)
       ++ (PGM_ ∘ fst <$> drop 1 PowerGridCore.__annotations__)).

Definition demo_world : world :=
  mkWorld "Linux" {[ "_power_grid_core.so" := demo_symbols ]} None [] [] [].

Definition demo_loaded : world :=
  mkWorld "Linux" {[ "_power_grid_core.so" := demo_symbols ]}
          (Some (mkCDLL demo_symbols ∅ ∅)) ["_power_grid_core.so"] [] [].

Definition demo_handle : value := VPtr HandlePtr 4096.
Definition demo_session : PowerGridCore_t := mkPowerGridCore demo_handle ∅.

(** The functor [__init__] attaches for [destroy_model], and what
    [make_c_binding] returns for [meta_component_name]. *)
Definition demo_destroy_model : WrapperFunc.t :=
  WrapperFunc.mk "PGM_destroy_model" demo_handle "destroy_model" [ModelPtr] py_None.
Definition demo_meta_component_name : cbind_closure :=
  mkClosure "meta_component_name" [c_char_p; IdxC] c_char_p.

(** A runtime whose engine refuses every call. *)
Definition demo_failing_runtime : Runtime :=
  mkRuntime (fun s => Ok (String.list_byte_of_string s))
            (fun b => Ok (String.string_of_list_byte b))
            (fun _ _ _ => Raise (ForeignError 1)).


(** ** Vocabulary for the statements below *)

(** A generated binding is either what [make_c_binding] returned for a
    decorated method or a [WrapperFunc] that [__init__] attached. *)
Inductive binding : Type :=
| Decorated (f : cbind_closure)
| Functor (wf : WrapperFunc.t).

Definition b_name (b : binding) : string :=
  match b with Decorated f => cb_name f | Functor wf => WrapperFunc._name wf end.
Definition b_argtypes (b : binding) : list pytype :=
  match b with
  | Decorated f => cb_c_argtypes f
  | Functor wf => WrapperFunc._c_argtypes wf
  end.
Definition b_restype (b : binding) : pytype :=
  match b with
  | Decorated f => cb_c_restype f
  | Functor wf => WrapperFunc._c_restype wf
  end.

(** The handle a binding has at hand: the session's for a method, the one
    captured at construction for a functor. *)
Definition b_handle (b : binding) (self : PowerGridCore_t) : value :=
  match b with Decorated _ => _handle self | Functor wf => WrapperFunc._handle wf end.

(** The function object a binding calls: looked up on [_CDLL] at every call
    by a method, held since construction by a functor. *)
Definition b_cfunc (b : binding) : M string :=
  match b with
  | Decorated f => getattr_CDLL (PGM_ (cb_name f))
  | Functor wf => ret (WrapperFunc._cfunc wf)
  end.

Definition invoke {R : Runtime} (b : binding) (self : PowerGridCore_t) (args : list value)
    : M value :=
  match b with
  | Decorated f => cbind_func f self args
  | Functor wf => WrapperFunc.__call__ wf args
  end.

(** What the native side receives for one argument declared with wire type
    [ty], and for a list of argument/type pairs. *)
Definition marshal_arg {R : Runtime} (arg : value) (ty : pytype) : outcome value :=
  if decide (ty = c_char_p) then encode arg else Ok arg.

Fixpoint marshal_all {R : Runtime} (pairs : list (value * pytype)) : outcome (list value) :=
  match pairs with
  | [] => Ok []
  | (arg, ty) :: pairs =>
      match marshal_arg arg ty with
      | Raise e => Raise e
      | Ok v =>
          match marshal_all pairs with
          | Raise e => Raise e
          | Ok vs => Ok (v :: vs)
          end
      end
  end.

(** What is returned to the caller for a native result [res] under wire
    return type [ty]. *)
Definition convert_result {R : Runtime} (ty : pytype) (res : value) : outcome value :=
  if decide (ty = c_char_p) then decode res else Ok res.

(** The session handle, or nothing, in front of the marshaled arguments. *)
Definition handle_prefix (name : string) (handle : value) : list value :=
  if str_in "destroy" name then [] else [handle].

(** The typing both generators derive from a declared name and signature. *)
Definition wire_type (x : pytype) : pytype := dict_get _ARGS_TYPE_MAPPING x x.

Definition wire_restype (name : string) (py_restype : pytype) : pytype :=
  if bool_decide (wire_type py_restype = IdxC) && bool_decide (name ∈ _FUNC_SIZE_T_RES)
  then c_size_t else wire_type py_restype.

Definition native_argtypes (name : string) (c_argtypes : list pytype) : list pytype :=
  if str_in "destroy" name then c_argtypes else HandlePtr :: c_argtypes.

(** The file name [_load_core] asks for. *)
Definition dll_file (w : world) : string :=
  if decide (platform_system w = "Windows") then "_power_grid_core.dll"
  else "_power_grid_core.so".

(** A computation keeps a relation between the state it starts in and the
    state it ends in, whatever its outcome. *)
Definition preserves {A} (P : world -> world -> Prop) (m : M A) : Prop :=
  ∀ w, P w (m w).2.

(** The relations used: a trace is kept as it is, and [_CDLL] keeps naming a
    library with the same exports. *)
Definition same {T} (proj : world -> T) : world -> world -> Prop :=
  fun w w' => proj w' = proj w.
Definition same_library : world -> world -> Prop :=
  fun w w' => exports <$> _CDLL w' = exports <$> _CDLL w.

(** The names [__init__] binds: the annotated names it does not skip. *)
Definition bound_names (items : list (string * PowerGridCore.annotation)) : list string :=
  List.filter (fun name => negb (startswith name "_")) items.*1.

(** Every symbol the module assigns a typing to while it is imported, in
    the order of the assignments. *)
Definition configured_symbols : list string :=
  ["PGM_create_handle"; "PGM_destroy_handle"]
    ++ (PGM_ ∘ __name__ <$> PowerGridCore.decorated)
    ++ (PGM_ <$> bound_names PowerGridCore.__annotations__).


(** Every functor attached to a session holds the session's handle and the
    function object of its own name. *)
Definition functors_of_session (self : PowerGridCore_t) : Prop :=
  ∀ n wf, attrs self !! n = Some wf →
    WrapperFunc._handle wf = _handle self
    ∧ WrapperFunc._cfunc wf = PGM_ (WrapperFunc._name wf).

(** An annotation [__init__] can process: skipped by its name, or a
    [Callable] alias, whose [__args__] is never empty. *)
Definition processable (item : string * PowerGridCore.annotation) : Prop :=
  startswith item.1 "_" = true
  ∨ ∃ args r, item.2 = PowerGridCore.GenericAlias args ∧ last args = Some r.


(** The state after [argtypes] and then [restype] of [sym] were assigned on
    the library [c] that [_CDLL] names. *)
Definition configured (sym : string) (tys : list pytype) (ty : pytype)
    (c : CDLL) (w : world) : world :=
  set_CDLL (Some (mkCDLL (exports c) (<[sym := tys]> (argtypes c))
                         (<[sym := ty]> (restype c))))
           (log_sig_write (W_restype sym ty) (log_sig_write (W_argtypes sym tys) w)).

(** The symbols whose [argtypes] (resp. [restype]) a trace assigns, one
    entry per assignment. *)
Definition argtypes_assigned (ws : list sig_write) : list string :=
  omap (fun sw => match sw with W_argtypes s _ => Some s | W_restype _ _ => None end) ws.
Definition restype_assigned (ws : list sig_write) : list string :=
  omap (fun sw => match sw with W_restype s _ => Some s | W_argtypes _ _ => None end) ws.

(** ** Vocabulary for the further properties *)

(** What [make_c_binding] returns for a function, as a function of it. *)
Definition closure_of (func : pyfunc) : cbind_closure :=
  mkClosure (__name__ func)
            (wire_type <$> drop 1 (parameters func).*2)
            (wire_restype (__name__ func) (return_annotation func)).

(** The functor [__init__] attaches for a name annotated with a [Callable]
    whose [__args__] ends in [r], and the functors it attaches for a list
    of annotations, in order. *)
Definition functor_for (handle : value) (name : string) (args : list pytype)
    (r : pytype) : WrapperFunc.t :=
  WrapperFunc.mk (PGM_ name) handle name
                 (wire_type <$> take (length args - 1) args)
                 (if decide (wire_restype name r = py_NoneType) then py_None
                  else wire_restype name r).

Fixpoint functors_for (handle : value) (items : list (string * PowerGridCore.annotation))
    : list WrapperFunc.t :=
  match items with
  | [] => []
  | (name, function) :: items =>
      if startswith name "_" then functors_for handle items
      else
        match function with
        | PowerGridCore.GenericAlias args =>
            match last args with
            | Some r => functor_for handle name args r :: functors_for handle items
            | None => functors_for handle items
            end
        | PowerGridCore.PlainClass _ => functors_for handle items
        end
  end.

(** The library object after the typing of one binding was assigned on it,
    and what it means for a library to carry the typing of a binding. *)
Definition configure_cdll (b : binding) (c : CDLL) : CDLL :=
  mkCDLL (exports c)
         (<[PGM_ (b_name b) := native_argtypes (b_name b) (b_argtypes b)]> (argtypes c))
         (<[PGM_ (b_name b) := b_restype b]> (restype c)).

Definition typed_as (c : CDLL) (b : binding) : Prop :=
  argtypes c !! PGM_ (b_name b) = Some (native_argtypes (b_name b) (b_argtypes b))
  ∧ restype c !! PGM_ (b_name b) = Some (b_restype b).

(** The two assignments a generator makes for a binding, the four the
    loader makes, and the bindings an import generates for a session
    handle. *)
Definition binding_writes (b : binding) : list sig_write :=
  [ W_argtypes (PGM_ (b_name b)) (native_argtypes (b_name b) (b_argtypes b));
    W_restype (PGM_ (b_name b)) (b_restype b) ].

Definition loader_writes : list sig_write :=
  [ W_argtypes "PGM_create_handle" []; W_restype "PGM_create_handle" HandlePtr;
    W_argtypes "PGM_destroy_handle" [HandlePtr];
    W_restype "PGM_destroy_handle" py_None ].

Definition import_bindings (handle : value) : list binding :=
  (Decorated ∘ closure_of <$> PowerGridCore.decorated)
    ++ (Functor <$> functors_for handle PowerGridCore.__annotations__).

(** * Properties *)

(** ** The model at work *)

Example destroy_in_destroy_model : str_in "destroy" "destroy_model" = true.
Proof. reflexivity. Qed.

Example destroy_not_in_create_model : str_in "destroy" "create_model" = false.
Proof. reflexivity. Qed.

Example underscore_handle_is_skipped :
  bound_names PowerGridCore.__annotations__
  = [ "create_options"; "destroy_options"; "set_calculation_type";
      "set_calculation_method"; "set_symmetric"; "set_err_tol"; "set_max_iter";
      "set_threading"; "create_model"; "update_model"; "copy_model"; "get_indexer";
      "destroy_model" ].
Proof. reflexivity. Qed.

(** Importing the module against the demo library: one file opened, one
    foreign call, and the session holds the handle the engine handed out. *)
Example import_on_demo_library :
  let r := import_module (R := demo_runtime) demo_world in
  (_handle ∘ power_grid_core <$> match r.1 with Ok m => Some m | Raise _ => None end)
  = Some demo_handle
  ∧ dlopens r.2 = ["_power_grid_core.so"]
  ∧ calls r.2 = [("PGM_create_handle", [])]
  ∧ length (sig_writes r.2) = 70.
Proof. cbv zeta. split_and!; by vm_compute. Qed.

(** The typing found on the library after the import. *)
Example typing_on_demo_library :
  match _CDLL (import_module (R := demo_runtime) demo_world).2 with
  | None => False
  | Some c =>
      size (argtypes c) = 35 ∧ size (restype c) = 35
      ∧ argtypes c !! "PGM_destroy_model" = Some [ModelPtr]
      ∧ restype c !! "PGM_destroy_model" = Some py_None
      ∧ argtypes c !! "PGM_create_options" = Some [HandlePtr]
      ∧ restype c !! "PGM_create_options" = Some OptionsPtr
      ∧ argtypes c !! "PGM_set_err_tol" = Some [HandlePtr; OptionsPtr; c_double]
      ∧ argtypes c !! "PGM_meta_attribute_offset"
        = Some [HandlePtr; c_char_p; c_char_p; c_char_p]
      ∧ restype c !! "PGM_meta_attribute_offset" = Some c_size_t
      ∧ restype c !! "PGM_error_message" = Some c_char_p
  end.
Proof. vm_compute. split_and!; reflexivity. Qed.

(** [self.meta_component_name("input", 2)] and [self.destroy_model(p)] on the
    imported module. *)
Example calls_on_demo_library :
  let r := import_module (R := demo_runtime) demo_world in
  match r.1 with
  | Raise _ => False
  | Ok m =>
      let call name args :=
        PowerGridCore.call_method (R := demo_runtime) (PowerGridCore_dict m)
          (power_grid_core m) name args r.2 in
      drop 1 (calls (call "meta_component_name" [VStr "input"; VInt 2]).2)
      = [("PGM_meta_component_name",
          [demo_handle; VBytes (String.list_byte_of_string "input"); VInt 2])]
      ∧ drop 1 (calls (call "destroy_model" [VPtr ModelPtr 8192]).2)
        = [("PGM_destroy_model", [VPtr ModelPtr 8192])]
      ∧ (call "error_message" []).1 = Ok (VStr "ok")
      ∧ (call "meta_component_name" [VInt 2; VInt 2]).1
        = Raise (AttributeError "encode")
  end.
Proof. vm_compute. split_and!; reflexivity. Qed.

(** ** How the primitives run *)

Lemma set_argtypes_eq (sym : string) (tys : list pytype) (w : world) :
  set_argtypes sym tys w =
  match _CDLL w with
  | None => (Raise (NameError "_CDLL"), w)
  | Some c =>
      if bool_decide (sym ∈ exports c)
      then (Ok (), set_CDLL (Some (mkCDLL (exports c) (<[sym := tys]> (argtypes c))
                                          (restype c)))
                            (log_sig_write (W_argtypes sym tys) w))
      else (Raise (AttributeError sym), w)
  end.
Proof.
  unfold set_argtypes, assign_argtypes, global_CDLL, bind, lift, update, ret, cdll_getattr.
  destruct (_CDLL w) as [c|]; [|done]. by case_bool_decide.
Qed.

Lemma set_restype_eq (sym : string) (ty : pytype) (w : world) :
  set_restype sym ty w =
  match _CDLL w with
  | None => (Raise (NameError "_CDLL"), w)
  | Some c =>
      if bool_decide (sym ∈ exports c)
      then (Ok (), set_CDLL (Some (mkCDLL (exports c) (argtypes c)
                                          (<[sym := ty]> (restype c))))
                            (log_sig_write (W_restype sym ty) w))
      else (Raise (AttributeError sym), w)
  end.
Proof.
  unfold set_restype, assign_restype, global_CDLL, bind, lift, update, ret, cdll_getattr.
  destruct (_CDLL w) as [c|]; [|done]. by case_bool_decide.
Qed.

Lemma getattr_CDLL_eq (sym : string) (w : world) :
  getattr_CDLL sym w =
  match _CDLL w with
  | None => (Raise (NameError "_CDLL"), w)
  | Some c =>
      if bool_decide (sym ∈ exports c) then (Ok sym, w)
      else (Raise (AttributeError sym), w)
  end.
Proof.
  unfold getattr_CDLL, global_CDLL, bind, lift, cdll_getattr.
  destruct (_CDLL w) as [c|]; [|done]. by case_bool_decide.
Qed.

(** Assigning both typing attributes of one symbol, as both generators do. *)
Lemma configure_eq (sym : string) (tys : list pytype) (ty : pytype) {A}
    (k : M A) (w : world) :
  (set_argtypes sym tys;;; set_restype sym ty;;; k) w =
  match _CDLL w with
  | None => (Raise (NameError "_CDLL"), w)
  | Some c =>
      if bool_decide (sym ∈ exports c) then k (configured sym tys ty c w)
      else (Raise (AttributeError sym), w)
  end.
Proof.
  unfold bind at 1. rewrite set_argtypes_eq.
  destruct (_CDLL w) as [c|] eqn:Hc; [|done].
  case_bool_decide as Hin; [|done].
  unfold bind. rewrite set_restype_eq. simpl.
  by rewrite bool_decide_eq_true_2.
Qed.

Lemma make_c_binding_eq (func : pyfunc) (w : world) :
  make_c_binding func w =
  let name := __name__ func in
  let c_argtypes := wire_type <$> drop 1 (parameters func).*2 in
  let c_restype := wire_restype name (return_annotation func) in
  match _CDLL w with
  | None => (Raise (NameError "_CDLL"), w)
  | Some c =>
      if bool_decide (PGM_ name ∈ exports c)
      then (Ok (mkClosure name c_argtypes c_restype),
            configured (PGM_ name) (native_argtypes name c_argtypes) c_restype c w)
      else (Raise (AttributeError (PGM_ name)), w)
  end.
Proof.
  unfold make_c_binding. cbv zeta.
  transitivity
    ((set_argtypes (PGM_ (__name__ func))
        (native_argtypes (__name__ func)
           (wire_type <$> drop 1 (parameters func).*2));;;
      set_restype (PGM_ (__name__ func))
        (wire_restype (__name__ func) (return_annotation func));;;
      ret (mkClosure (__name__ func) (wire_type <$> drop 1 (parameters func).*2)
             (wire_restype (__name__ func) (return_annotation func)))) w).
  { unfold native_argtypes. by destruct (str_in "destroy" (__name__ func)). }
  rewrite configure_eq. destruct (_CDLL w); [|done]. by case_bool_decide.
Qed.


(** ** The type mapping table *)

Lemma mapping_absent (x : pytype) :
  x ≠ py_str → x ≠ py_int → x ≠ py_float → _ARGS_TYPE_MAPPING !! x = None.
Proof.
  intros Hs Hi Hf. unfold _ARGS_TYPE_MAPPING.
  rewrite !lookup_insert_ne by congruence. apply lookup_empty.
Qed.

Lemma dict_get_absent {K V} `{Countable K} (d : gmap K V) (k : K) (dflt : V) :
  d !! k = None → dict_get d k dflt = dflt.
Proof. unfold dict_get. by intros ->. Qed.

Lemma dict_get_present {K V} `{Countable K} (d : gmap K V) (k : K) (v dflt : V) :
  d !! k = Some v → dict_get d k dflt = v.
Proof. unfold dict_get. by intros ->. Qed.

(** C6: the mapping sends [str] to [c_char_p], [int] to [IdxC] and [float]
    to [c_double]; every other type object, in particular every pointer type
    and every opaque handle type the module declares, is returned as it is;
    and both generators obtain their wire argument types by this lookup and
    by nothing else. *)
Theorem type_mapping_is_lookup_with_passthrough :
  dict_get _ARGS_TYPE_MAPPING py_str py_str = c_char_p
  ∧ dict_get _ARGS_TYPE_MAPPING py_int py_int = IdxC
  ∧ dict_get _ARGS_TYPE_MAPPING py_float py_float = c_double
  ∧ (∀ x : pytype, x ∉ [py_str; py_int; py_float] →
       _ARGS_TYPE_MAPPING !! x = None ∧ dict_get _ARGS_TYPE_MAPPING x x = x)
  ∧ (∀ t : pytype, dict_get _ARGS_TYPE_MAPPING (POINTER t) (POINTER t) = POINTER t)
  ∧ Forall (fun t => dict_get _ARGS_TYPE_MAPPING t t = t)
           [ HandlePtr; OptionsPtr; ModelPtr; IdxPtr; IdxDoublePtr; IDPtr;
             CharDoublePtr; VoidDoublePtr ]
  ∧ (∀ func w f w', make_c_binding func w = (Ok f, w') →
       cb_c_argtypes f
       = (fun x => dict_get _ARGS_TYPE_MAPPING x x) <$> drop 1 (parameters func).*2).
Proof.
  assert (Hpass : ∀ x : pytype, x ∉ [py_str; py_int; py_float] →
            _ARGS_TYPE_MAPPING !! x = None ∧ dict_get _ARGS_TYPE_MAPPING x x = x).
  { intros x Hx. rewrite !not_elem_of_cons in Hx. destruct Hx as (Hs & Hi & Hf & _).
    pose proof (mapping_absent x Hs Hi Hf) as Hnone.
    split; [exact Hnone | by apply dict_get_absent]. }
  assert (Hout : ∀ x : pytype, x ≠ py_str → x ≠ py_int → x ≠ py_float →
            dict_get _ARGS_TYPE_MAPPING x x = x).
  { intros x Hs Hi Hf. apply Hpass. rewrite !not_elem_of_cons.
    split_and!; [done..|apply not_elem_of_nil]. }
  split_and!.
  - by apply dict_get_present.
  - by apply dict_get_present.
  - by apply dict_get_present.
  - exact Hpass.
  - intros t. by apply Hout.
  - repeat (apply Forall_cons_2; [by apply Hout|]). apply Forall_nil_2.
  - intros func w f w'. rewrite make_c_binding_eq. cbv zeta.
    destruct (_CDLL w); [|done]. case_bool_decide; [|done].
    by intros [= <- _].
Qed.

(** ** Copying a session *)

(** C3: [__copy__] and [__deepcopy__] raise [NotImplementedError] whatever
    the session and the interpreter state are, and leave that state as it
    was: no foreign call is made, and no handle is produced. *)
Theorem copy_and_deepcopy_raise_without_native_call
    (self : PowerGridCore_t) (memodict : gmap Z value) (w : world) :
  (∃ msg, (PowerGridCore.__copy__ self w).1 = Raise (NotImplementedError msg))
  ∧ (∃ msg, (PowerGridCore.__deepcopy__ self memodict w).1
            = Raise (NotImplementedError msg))
  ∧ (PowerGridCore.__copy__ self w).2 = w
  ∧ (PowerGridCore.__deepcopy__ self memodict w).2 = w
  ∧ calls (PowerGridCore.__copy__ self w).2 = calls w
  ∧ calls (PowerGridCore.__deepcopy__ self memodict w).2 = calls w.
Proof.
  unfold PowerGridCore.__copy__, PowerGridCore.__deepcopy__, raise. simpl.
  split_and!; eauto.
Qed.

(** ** How a generated binding runs *)
Section invocation.
Context {R : Runtime}.

Lemma cbind_marshal_eq (pairs : list (value * pytype)) (acc : list value) :
  cbind_marshal pairs acc =
  match marshal_all pairs with Ok vs => Ok (acc ++ vs) | Raise e => Raise e end.
Proof.
  revert acc. induction pairs as [|[arg ty] pairs IH]; intros acc; simpl.
  - by rewrite app_nil_r.
  - unfold marshal_arg. case_decide.
    + destruct (encode arg) as [v|e]; [|done]. rewrite IH.
      destruct (marshal_all pairs); [|done]. by rewrite <- app_assoc.
    + rewrite IH. destruct (marshal_all pairs); [|done]. by rewrite <- app_assoc.
Qed.

Lemma functor_marshal_eq (pairs : list (value * pytype)) (acc : list value) :
  WrapperFunc.marshal pairs acc =
  match marshal_all pairs with Ok vs => Ok (acc ++ vs) | Raise e => Raise e end.
Proof.
  revert acc. induction pairs as [|[arg ty] pairs IH]; intros acc; simpl.
  - by rewrite app_nil_r.
  - unfold marshal_arg. case_decide.
    + destruct (encode arg) as [v|e]; [|done]. rewrite IH.
      destruct (marshal_all pairs); [|done]. by rewrite <- app_assoc.
    + rewrite IH. destruct (marshal_all pairs); [|done]. by rewrite <- app_assoc.
Qed.

(** Looking a function object up reads the state and leaves it alone. *)
Lemma b_cfunc_pure (b : binding) (w : world) : (b_cfunc b w).2 = w.
Proof.
  destruct b as [f|wf]; simpl; [|done]. rewrite getattr_CDLL_eq.
  destruct (_CDLL w); [|done]. by case_bool_decide.
Qed.

(** The whole of an invocation: marshal, resolve, call, convert. *)
Lemma invoke_eq (b : binding) (self : PowerGridCore_t) (args : list value) (w : world) :
  invoke b self args w =
  match marshal_all (zip args (b_argtypes b)) with
  | Raise e => (Raise e, w)
  | Ok ins =>
      match (b_cfunc b w).1 with
      | Raise e => (Raise e, w)
      | Ok f =>
          let inputs := handle_prefix (b_name b) (b_handle b self) ++ ins in
          (match foreign (calls w) f inputs with
           | Raise e => Raise e
           | Ok res => convert_result (b_restype b) res
           end,
           log_call (f, inputs) w)
      end
  end.
Proof.
  destruct b as [f|wf]; simpl.
  - unfold cbind_func, bind, lift. rewrite cbind_marshal_eq.
    destruct (marshal_all _) as [ins|e]; [|done].
    rewrite getattr_CDLL_eq. destruct (_CDLL w) as [c|]; [|done].
    case_bool_decide; [|done]. simpl.
    unfold cfunc_call, handle_prefix, convert_result, ret.
    destruct (foreign _ _ _) as [res|e]; [|done]. by case_decide.
  - unfold WrapperFunc.__call__, bind, lift. rewrite functor_marshal_eq.
    destruct (marshal_all _) as [ins|e]; [|done]. simpl.
    unfold cfunc_call, handle_prefix, convert_result, ret.
    destruct (foreign _ _ _) as [res|e]; [|done]. by case_decide.
Qed.

(** Marshaling is positional and as long as the shorter of its lists. *)
Lemma marshal_all_length (pairs : list (value * pytype)) (ins : list value) :
  marshal_all pairs = Ok ins → length ins = length pairs.
Proof.
  revert ins. induction pairs as [|[arg ty] pairs IH]; intros ins; simpl.
  - by intros [= <-].
  - destruct (marshal_arg arg ty); [|done].
    destruct (marshal_all pairs) as [vs|]; [|done].
    intros [= <-]. simpl. by rewrite (IH vs).
Qed.

Lemma marshal_all_lookup (pairs : list (value * pytype)) (ins : list value)
    (i : nat) (arg : value) (ty : pytype) :
  marshal_all pairs = Ok ins → pairs !! i = Some (arg, ty) →
  ∃ v, ins !! i = Some v ∧ marshal_arg arg ty = Ok v.
Proof.
  revert ins i. induction pairs as [|[a t] pairs IH]; intros ins i; simpl; [done|].
  destruct (marshal_arg a t) as [v|] eqn:Hv; [|done].
  destruct (marshal_all pairs) as [vs|]; [|done].
  intros [= <-]. destruct i as [|i]; simpl.
  - intros [= -> ->]. eauto.
  - intros Hi. by apply IH.
Qed.

(** Marshaling succeeds as soon as every argument in a text position does. *)
Lemma marshal_all_total (pairs : list (value * pytype)) :
  (∀ i arg, pairs !! i = Some (arg, c_char_p) → ∃ v, encode arg = Ok v) →
  ∃ ins, marshal_all pairs = Ok ins.
Proof.
  induction pairs as [|[a t] pairs IH]; intros Henc; simpl; [eauto|].
  assert (∃ v, marshal_arg a t = Ok v) as [v ->].
  { unfold marshal_arg. case_decide as Ht; [|eauto]. subst t. apply (Henc 0). done. }
  destruct IH as [vs ->]; [|eauto].
  intros i arg Hi. apply (Henc (S i)). done.
Qed.

Lemma marshal_all_no_text (args : list value) (tys : list pytype) :
  Forall (fun ty => ty ≠ c_char_p) tys →
  marshal_all (zip args tys) = Ok (take (length tys) args).
Proof.
  intros Htys. revert args.
  induction Htys as [|ty tys Hty _ IH]; intros [|arg args]; simpl; try done.
  unfold marshal_arg. rewrite decide_False by done. by rewrite IH.
Qed.

Lemma zip_take_l {A B} (l : list A) (k : list B) :
  zip (take (length k) l) k = zip l k.
Proof.
  revert k. induction l as [|x l IH]; intros [|y k]; simpl; try done.
  by rewrite IH.
Qed.

End invocation.

(** ** Handle prepending *)

(** C2: when the name of a generated binding contains "destroy", the
    foreign call receives the marshaled caller arguments and nothing else,
    so the session handle is absent; for every other binding the session
    handle is the first input and the marshaled caller arguments follow.
    Where no declared type is text and the caller supplies as many arguments
    as are declared (as for [destroy_options] and [destroy_model]), the
    marshaled arguments are the caller's own. *)
Theorem destroy_omits_handle_others_prepend_it {R : Runtime}
    (b : binding) (self : PowerGridCore_t) (args ins : list value)
    (f : string) (w : world) :
  b_handle b self = _handle self →
  marshal_all (zip args (b_argtypes b)) = Ok ins →
  (b_cfunc b w).1 = Ok f →
  calls (invoke b self args w).2
  = calls w
    ++ [(f, if str_in "destroy" (b_name b) then ins else _handle self :: ins)]
  ∧ (Forall (fun ty => ty ≠ c_char_p) (b_argtypes b) →
     length args = length (b_argtypes b) → ins = args).
Proof.
  intros Hh Hins Hf. split.
  - rewrite invoke_eq, Hins, Hf. cbv zeta. simpl. unfold handle_prefix.
    rewrite Hh. by destruct (str_in "destroy" (b_name b)).
  - intros Htys Hlen. rewrite (marshal_all_no_text args _ Htys) in Hins.
    injection Hins as <-. rewrite <- Hlen. apply firstn_all.
Qed.

Lemma destroy_omits_handle_others_prepend_it_witness :
  let b := Functor demo_destroy_model in
  let args := [VPtr ModelPtr 8192] in
  b_handle b demo_session = _handle demo_session
  ∧ marshal_all (R := demo_runtime) (zip args (b_argtypes b)) = Ok args
  ∧ (b_cfunc b demo_loaded).1 = Ok "PGM_destroy_model"
  ∧ calls (invoke (R := demo_runtime) b demo_session args demo_loaded).2
    = [("PGM_destroy_model", args)].
Proof.
  cbv zeta.
  assert (H1 : b_handle (Functor demo_destroy_model) demo_session = _handle demo_session)
    by reflexivity.
  assert (H2 : marshal_all (R := demo_runtime)
                 (zip [VPtr ModelPtr 8192] (b_argtypes (Functor demo_destroy_model)))
               = Ok [VPtr ModelPtr 8192]) by reflexivity.
  assert (H3 : (b_cfunc (Functor demo_destroy_model) demo_loaded).1
               = Ok "PGM_destroy_model") by reflexivity.
  split; [exact H1|]. split; [exact H2|]. split; [exact H3|].
  exact (proj1 (destroy_omits_handle_others_prepend_it (R := demo_runtime)
                  _ _ _ _ _ _ H1 H2 H3)).
Defined.

(** ** Text marshaling *)

(** C4: if every argument standing in a text position is a [str] that
    encodes, a generated binding makes its foreign call; the inputs after
    the handle prefix are, position by position, the encoded bytes where the
    declared wire type is [c_char_p] and the caller's own argument elsewhere;
    and the caller receives the native result decoded when the wire return
    type is [c_char_p], and unchanged otherwise. *)
Theorem text_is_encoded_in_and_decoded_out {R : Runtime}
    (b : binding) (self : PowerGridCore_t) (args : list value)
    (f : string) (w : world) :
  (b_cfunc b w).1 = Ok f →
  (∀ i arg, args !! i = Some arg → b_argtypes b !! i = Some c_char_p →
     ∃ s bs, arg = VStr s ∧ str_encode s = Ok bs) →
  ∃ ins,
    (invoke b self args w).2
    = log_call (f, handle_prefix (b_name b) (b_handle b self) ++ ins) w
    ∧ length ins = min (length args) (length (b_argtypes b))
    ∧ (∀ i arg ty, args !! i = Some arg → b_argtypes b !! i = Some ty →
         if decide (ty = c_char_p)
         then ∃ s bs, arg = VStr s ∧ str_encode s = Ok bs ∧ ins !! i = Some (VBytes bs)
         else ins !! i = Some arg)
    ∧ (invoke b self args w).1
      = match foreign (calls w) f
                (handle_prefix (b_name b) (b_handle b self) ++ ins) with
        | Raise e => Raise e
        | Ok res =>
            if decide (b_restype b = c_char_p) then
              match res with
              | VBytes bs =>
                  match bytes_decode bs with Ok s => Ok (VStr s) | Raise e => Raise e end
              | _ => Raise (AttributeError "decode")
              end
            else Ok res
        end.
Proof.
  intros Hf Htext.
  destruct (marshal_all_total (zip args (b_argtypes b))) as [ins Hins].
  { intros i arg Hi. apply lookup_zip_with_Some in Hi as (a & t & Heq & Ha & Ht).
    simplify_eq. destruct (Htext i a Ha Ht) as (s & bs & -> & Hs).
    simpl. rewrite Hs. eauto. }
  exists ins. rewrite invoke_eq, Hins, Hf. cbv zeta. simpl. split_and!.
  - done.
  - rewrite (marshal_all_length _ _ Hins). apply length_zip_with.
  - intros i arg ty Ha Ht.
    destruct (marshal_all_lookup (zip args (b_argtypes b)) ins i arg ty Hins)
      as (v & Hv & Hm).
    { apply lookup_zip_with_Some. eauto. }
    unfold marshal_arg in Hm. case_decide as Hty.
    + subst ty. destruct (Htext i arg Ha Ht) as (s & bs & -> & Hs).
      simpl in Hm. rewrite Hs in Hm. simplify_eq. eauto.
    + by simplify_eq.
  - destruct (foreign _ _ _) as [res|e]; [|done].
    unfold convert_result, decode. by case_decide.
Qed.

Lemma text_is_encoded_in_and_decoded_out_witness :
  let b := Decorated demo_meta_component_name in
  let args := [VStr "input"; VInt 2] in
  (b_cfunc b demo_loaded).1 = Ok "PGM_meta_component_name"
  ∧ (∀ i arg, args !! i = Some arg → b_argtypes b !! i = Some c_char_p →
       ∃ s bs, arg = VStr s ∧ str_encode (Runtime := demo_runtime) s = Ok bs)
  ∧ ∃ ins,
      (invoke (R := demo_runtime) b demo_session args demo_loaded).2
      = log_call ("PGM_meta_component_name",
                  handle_prefix (b_name b) (b_handle b demo_session) ++ ins) demo_loaded
      ∧ length ins = 2.
Proof.
  cbv zeta.
  assert (H1 : (b_cfunc (Decorated demo_meta_component_name) demo_loaded).1
               = Ok "PGM_meta_component_name") by (by vm_compute).
  assert (H2 : ∀ i arg, [VStr "input"; VInt 2] !! i = Some arg →
                 b_argtypes (Decorated demo_meta_component_name) !! i = Some c_char_p →
                 ∃ s bs, arg = VStr s ∧ str_encode (Runtime := demo_runtime) s = Ok bs).
  { intros i arg Ha Ht. destruct i as [|[|i]]; [|discriminate Ht..].
    injection Ha as <-.
    exists "input", (String.list_byte_of_string "input"). split; reflexivity. }
  split; [exact H1|]. split; [exact H2|].
  destruct (text_is_encoded_in_and_decoded_out (R := demo_runtime)
              (Decorated demo_meta_component_name) demo_session
              [VStr "input"; VInt 2] _ demo_loaded H1 H2)
    as (ins & Hw & Hlen & _).
  exists ins. split; [exact Hw | exact Hlen].
Defined.

(** ** The two mechanisms *)

(** C9: a functor constructed for a name, a list of wire argument types, a
    wire return type and a handle, and the method [make_c_binding] closes
    over the same name and types, called on a session holding the same
    handle, do the same thing in every state in which [_CDLL] still names
    the library the functor was constructed on: same outcome for the caller
    and same state afterwards, hence the same function object called with the
    same inputs and the same conversion of its result. *)
Theorem decorated_method_and_functor_agree {R : Runtime}
    (name : string) (c_argtypes : list pytype) (c_restype : pytype) (handle : value)
    (wf : WrapperFunc.t) (self : PowerGridCore_t) (args : list value)
    (w0 w0' w : world) :
  WrapperFunc.__init__ handle name c_argtypes c_restype w0 = (Ok wf, w0') →
  _handle self = handle →
  exports <$> _CDLL w = exports <$> _CDLL w0 →
  cbind_func (mkClosure name c_argtypes c_restype) self args w
  = WrapperFunc.__call__ wf args w
  ∧ (∀ ins, marshal_all (zip args c_argtypes) = Ok ins →
       calls (WrapperFunc.__call__ wf args w).2
       = calls w ++ [(PGM_ name, handle_prefix name handle ++ ins)]).
Proof.
  intros Hinit Hh Hexp.
  unfold WrapperFunc.__init__, bind in Hinit. rewrite getattr_CDLL_eq in Hinit.
  destruct (_CDLL w0) as [c0|] eqn:Hc0; [|done].
  case_bool_decide as Hin; [|done]. injection Hinit as <- <-.
  destruct (_CDLL w) as [c|] eqn:Hc; [|done]. injection Hexp as Hexp.
  pose proof (invoke_eq (Decorated (mkClosure name c_argtypes c_restype)) self args w)
    as Hd.
  pose proof (invoke_eq
                (Functor (WrapperFunc.mk (PGM_ name) handle name c_argtypes c_restype))
                self args w) as Hw.
  simpl in Hd, Hw. rewrite getattr_CDLL_eq, Hc, Hexp, bool_decide_eq_true_2 in Hd by done.
  simpl in Hd. split.
  - rewrite Hd, Hw, Hh. done.
  - intros ins Hins. rewrite Hw, Hins. done.
Qed.

Lemma decorated_method_and_functor_agree_witness :
  let wf := WrapperFunc.mk "PGM_meta_component_name" demo_handle
                           "meta_component_name" [c_char_p; IdxC] c_char_p in
  WrapperFunc.__init__ demo_handle "meta_component_name" [c_char_p; IdxC] c_char_p
                       demo_loaded = (Ok wf, demo_loaded)
  ∧ cbind_func (R := demo_runtime) demo_meta_component_name demo_session
               [VStr "input"; VInt 2] demo_loaded
    = WrapperFunc.__call__ (R := demo_runtime) wf [VStr "input"; VInt 2] demo_loaded.
Proof.
  cbv zeta.
  assert (H1 : WrapperFunc.__init__ demo_handle "meta_component_name"
                 [c_char_p; IdxC] c_char_p demo_loaded
               = (Ok (WrapperFunc.mk "PGM_meta_component_name" demo_handle
                        "meta_component_name" [c_char_p; IdxC] c_char_p), demo_loaded))
    by (by vm_compute).
  split; [exact H1|].
  exact (proj1 (decorated_method_and_functor_agree (R := demo_runtime)
                  _ _ _ _ _ demo_session [VStr "input"; VInt 2] _ _ demo_loaded
                  H1 eq_refl eq_refl)).
Defined.

(** ** Arity *)

(** C10: arguments are paired with the declared wire types by position,
    up to the shorter of the two lists.  Arguments beyond the declared ones
    change nothing: the binding behaves as on the declared-length prefix,
    so no arity error arises from them.  The marshaled inputs number
    [min (length args) (length types)], so with fewer arguments than declared
    only the supplied ones are marshaled; and when no declared type is text
    the foreign call is made with exactly that prefix of the caller's
    arguments after the handle prefix. *)
Theorem marshaling_stops_at_shorter_list {R : Runtime}
    (b : binding) (self : PowerGridCore_t) (args surplus : list value) (w : world) :
  invoke b self args w = invoke b self (take (length (b_argtypes b)) args) w
  ∧ ((length (b_argtypes b) ≤ length args)%nat →
     invoke b self (args ++ surplus) w = invoke b self args w)
  ∧ (∀ ins, marshal_all (zip args (b_argtypes b)) = Ok ins →
       length ins = min (length args) (length (b_argtypes b)))
  ∧ (∀ f, Forall (fun ty => ty ≠ c_char_p) (b_argtypes b) →
       (b_cfunc b w).1 = Ok f →
       calls (invoke b self args w).2
       = calls w ++ [(f, handle_prefix (b_name b) (b_handle b self)
                         ++ take (length (b_argtypes b)) args)]).
Proof.
  assert (Htake : ∀ l, invoke b self l w
                       = invoke b self (take (length (b_argtypes b)) l) w).
  { intros l. by rewrite !invoke_eq, zip_take_l. }
  split_and!.
  - apply Htake.
  - intros Hlen. rewrite (Htake (args ++ surplus)), (Htake args).
    by rewrite take_app_le.
  - intros ins Hins. rewrite (marshal_all_length _ _ Hins). apply length_zip_with.
  - intros f Htys Hf. by rewrite invoke_eq, (marshal_all_no_text _ _ Htys), Hf.
Qed.

(** ** The size, alignment and offset queries *)

(** C1, as the code runs: [make_c_binding] gives [meta_component_size] and
    [meta_component_alignment] the signed index [IdxC] as wire return type,
    and configures that on the library; of the three queries only
    [meta_attribute_offset] gets [c_size_t].  The set [_FUNC_SIZE_T_RES]
    holds the names [meta_class_size] and [meta_class_alignment], which no
    declared operation has. *)
Theorem size_and_alignment_queries_are_not_overridden :
  (make_c_binding PowerGridCore.meta_component_size demo_loaded).1
  = Ok (mkClosure "meta_component_size" [c_char_p; c_char_p] IdxC)
  ∧ (make_c_binding PowerGridCore.meta_component_alignment demo_loaded).1
    = Ok (mkClosure "meta_component_alignment" [c_char_p; c_char_p] IdxC)
  ∧ (make_c_binding PowerGridCore.meta_attribute_offset demo_loaded).1
    = Ok (mkClosure "meta_attribute_offset" [c_char_p; c_char_p; c_char_p] c_size_t)
  ∧ (_CDLL (make_c_binding PowerGridCore.meta_component_size demo_loaded).2
       ≫= fun c => restype c !! "PGM_meta_component_size") = Some IdxC
  ∧ bool_decide ("meta_component_size" ∈ _FUNC_SIZE_T_RES) = false
  ∧ bool_decide ("meta_component_alignment" ∈ _FUNC_SIZE_T_RES) = false
  ∧ Forall (fun func => bool_decide (__name__ func ∈ _FUNC_SIZE_T_RES)
                        = bool_decide (__name__ func = "meta_attribute_offset"))
           PowerGridCore.decorated.
Proof.
  split_and!; try (rewrite make_c_binding_eq); try (by vm_compute).
  unfold PowerGridCore.decorated.
  repeat (apply Forall_cons_2; [by vm_compute|]). apply Forall_nil_2.
Qed.

(** ** Frames: what each part of the module leaves alone *)

#[global] Instance same_refl {T} (proj : world -> T) : Reflexive (same proj).
Proof. by intros w. Qed.
#[global] Instance same_trans {T} (proj : world -> T) : Transitive (same proj).
Proof. unfold same. intros w1 w2 w3 H12 H23. by rewrite H23. Qed.
#[global] Instance same_library_refl : Reflexive same_library.
Proof. by intros w. Qed.
#[global] Instance same_library_trans : Transitive same_library.
Proof. unfold same_library. intros w1 w2 w3 H12 H23. by rewrite H23. Qed.

Lemma preserves_ret {A} (P : world -> world -> Prop) `{!Reflexive P} (a : A) :
  preserves P (ret a).
Proof. intros w. simpl. reflexivity. Qed.

Lemma preserves_raise {A} (P : world -> world -> Prop) `{!Reflexive P} (e : exn) :
  preserves P (raise (A := A) e).
Proof. intros w. simpl. reflexivity. Qed.

Lemma preserves_lift {A} (P : world -> world -> Prop) `{!Reflexive P} (o : outcome A) :
  preserves P (lift o).
Proof. intros w. simpl. reflexivity. Qed.

Lemma preserves_bind {A B} (P : world -> world -> Prop) `{!Transitive P}
    (m : M A) (k : A -> M B) :
  preserves P m → (∀ a, preserves P (k a)) → preserves P (bind m k).
Proof.
  intros Hm Hk w. unfold bind. specialize (Hm w).
  destruct (m w) as [[a|e] w1]; simpl in *; [|done].
  etrans; [exact Hm | apply Hk].
Qed.

Lemma preserves_global_CDLL (P : world -> world -> Prop) `{!Reflexive P} :
  preserves P global_CDLL.
Proof. intros w. unfold global_CDLL. by destruct (_CDLL w). Qed.

Lemma preserves_platform_system_call (P : world -> world -> Prop) `{!Reflexive P} :
  preserves P platform_system_call.
Proof. intros w. simpl. reflexivity. Qed.

Lemma preserves_update (P : world -> world -> Prop) (f : world -> world) :
  (∀ w, P w (f w)) → preserves P (update f).
Proof. intros Hf w. apply Hf. Qed.

Lemma preserves_CDLL_open {T} (proj : world -> T) (file : string) :
  (∀ w, proj (log_dlopen file w) = proj w) → preserves (same proj) (CDLL_open file).
Proof. intros Hp w. unfold CDLL_open. destruct (shared_libs w !! file); apply Hp. Qed.

Lemma preserves_cfunc_call {R : Runtime} (P : world -> world -> Prop)
    (f : string) (inputs : list value) :
  (∀ w, P w (log_call (f, inputs) w)) → preserves P (cfunc_call f inputs).
Proof. intros Hp w. apply Hp. Qed.

(** One step of a frame proof, by the shape of the computation. *)
Ltac frame_step :=
  lazymatch goal with
  | |- preserves _ (bind _ _) => apply preserves_bind; [tc_solve| |intros ?]
  | |- preserves _ (ret _) => apply preserves_ret; tc_solve
  | |- preserves _ (raise _) => apply preserves_raise; tc_solve
  | |- preserves _ (lift _) => apply preserves_lift; tc_solve
  | |- preserves _ global_CDLL => apply preserves_global_CDLL; tc_solve
  | |- preserves _ platform_system_call =>
      apply preserves_platform_system_call; tc_solve
  | |- preserves _ (update _) => apply preserves_update; intros ?; reflexivity
  | |- preserves _ (CDLL_open _) => apply preserves_CDLL_open; intros ?; reflexivity
  | |- preserves _ (cfunc_call _ _) => apply preserves_cfunc_call; intros ?; reflexivity
  | |- preserves _ (if ?b then _ else _) => destruct b
  | |- preserves _ (match ?x with _ => _ end) => destruct x
  end.
Ltac frame := repeat frame_step.

(** Assigning a typing attribute touches neither the call trace nor the
    open trace, and keeps the library. *)
Lemma set_argtypes_frame (sym : string) (tys : list pytype) :
  preserves (same calls) (set_argtypes sym tys)
  ∧ preserves (same dlopens) (set_argtypes sym tys)
  ∧ preserves same_library (set_argtypes sym tys).
Proof.
  split_and!; intros w; rewrite set_argtypes_eq;
    (destruct (_CDLL w) as [c|] eqn:Hc; [|done]); (case_bool_decide; [|done]).
  - done.
  - done.
  - unfold same_library. simpl. by rewrite Hc.
Qed.

Lemma set_restype_frame (sym : string) (ty : pytype) :
  preserves (same calls) (set_restype sym ty)
  ∧ preserves (same dlopens) (set_restype sym ty)
  ∧ preserves same_library (set_restype sym ty).
Proof.
  split_and!; intros w; rewrite set_restype_eq;
    (destruct (_CDLL w) as [c|] eqn:Hc; [|done]); (case_bool_decide; [|done]).
  - done.
  - done.
  - unfold same_library. simpl. by rewrite Hc.
Qed.

Lemma getattr_CDLL_unchanged (sym : string) (w : world) : (getattr_CDLL sym w).2 = w.
Proof.
  rewrite getattr_CDLL_eq. destruct (_CDLL w); [|done]. by case_bool_decide.
Qed.

Lemma preserves_getattr_CDLL (P : world -> world -> Prop) `{!Reflexive P} (sym : string) :
  preserves P (getattr_CDLL sym).
Proof. intros w. by rewrite getattr_CDLL_unchanged. Qed.

Lemma make_c_binding_frame (func : pyfunc) :
  preserves (same calls) (make_c_binding func)
  ∧ preserves (same dlopens) (make_c_binding func)
  ∧ preserves same_library (make_c_binding func).
Proof.
  split_and!; intros w; rewrite make_c_binding_eq; cbv zeta;
    (destruct (_CDLL w) as [c|] eqn:Hc; [|done]); (case_bool_decide; [|done]).
  - done.
  - done.
  - unfold same_library. simpl. by rewrite Hc.
Qed.

Lemma class_body_frame (funcs : list pyfunc) (dict : gmap string cbind_closure) :
  preserves (same calls) (PowerGridCore.class_body funcs dict)
  ∧ preserves (same dlopens) (PowerGridCore.class_body funcs dict)
  ∧ preserves same_library (PowerGridCore.class_body funcs dict).
Proof.
  revert dict. induction funcs as [|func funcs IH]; intros dict; simpl.
  - split_and!; frame.
  - destruct (make_c_binding_frame func) as (Hc & Hd & Hl).
    split_and!; frame_step; try done; apply IH.
Qed.

(** ** Construction and teardown of a session *)

Lemma __init__body_skip (self : PowerGridCore_t) (name : string)
    (function : PowerGridCore.annotation) :
  startswith name "_" = true →
  PowerGridCore.__init__body self (name, function) = ret self.
Proof. intros Hn. unfold PowerGridCore.__init__body. by rewrite Hn. Qed.

Lemma __init__body_eq (self : PowerGridCore_t) (name : string)
    (args : list pytype) (r : pytype) (w : world) :
  startswith name "_" = false → last args = Some r →
  PowerGridCore.__init__body self (name, PowerGridCore.GenericAlias args) w =
  let c_argtypes := wire_type <$> take (length args - 1) args in
  let c_restype :=
    if decide (wire_restype name r = py_NoneType) then py_None
    else wire_restype name r in
  match _CDLL w with
  | None => (Raise (NameError "_CDLL"), w)
  | Some c =>
      if bool_decide (PGM_ name ∈ exports c)
      then (Ok (setattr self name
                  (WrapperFunc.mk (PGM_ name) (_handle self) name c_argtypes c_restype)),
            configured (PGM_ name) (native_argtypes name c_argtypes) c_restype c w)
      else (Raise (AttributeError (PGM_ name)), w)
  end.
Proof.
  intros Hn Hr. unfold PowerGridCore.__init__body. rewrite Hn.
  unfold bind at 1. unfold lift at 1. unfold bind at 1. unfold lift at 1.
  rewrite Hr. cbv zeta.
  set (c_argtypes := wire_type <$> take (length args - 1) args).
  set (c_restype := if decide (wire_restype name r = py_NoneType) then py_None
                    else wire_restype name r).
  transitivity
    ((set_argtypes (PGM_ name) (native_argtypes name c_argtypes);;;
      set_restype (PGM_ name) c_restype;;;
      wf <- WrapperFunc.__init__ (_handle self) name c_argtypes c_restype;;
      ret (setattr self name wf)) w).
  { unfold native_argtypes. by destruct (str_in "destroy" name). }
  rewrite configure_eq. destruct (_CDLL w) as [c|] eqn:Hc; [|done].
  case_bool_decide as Hin; [|done].
  unfold bind, WrapperFunc.__init__, bind. rewrite getattr_CDLL_eq. simpl.
  by rewrite bool_decide_eq_true_2.
Qed.

Lemma configured_sig_writes (sym : string) (tys : list pytype) (ty : pytype)
    (c : CDLL) (w : world) :
  sig_writes (configured sym tys ty c w)
  = sig_writes w ++ [W_argtypes sym tys; W_restype sym ty].
Proof. simpl. by rewrite <- app_assoc. Qed.

Lemma argtypes_assigned_app (ws1 ws2 : list sig_write) :
  argtypes_assigned (ws1 ++ ws2) = argtypes_assigned ws1 ++ argtypes_assigned ws2.
Proof. apply omap_app. Qed.

Lemma restype_assigned_app (ws1 ws2 : list sig_write) :
  restype_assigned (ws1 ++ ws2) = restype_assigned ws1 ++ restype_assigned ws2.
Proof. apply omap_app. Qed.

(** The class body: one pair of assignments per decorated method, in order. *)
Lemma class_body_ok (funcs : list pyfunc) (dict dict' : gmap string cbind_closure)
    (w w' : world) :
  PowerGridCore.class_body funcs dict w = (Ok dict', w') →
  (∃ ws, sig_writes w' = sig_writes w ++ ws
         ∧ argtypes_assigned ws = PGM_ ∘ __name__ <$> funcs
         ∧ restype_assigned ws = PGM_ ∘ __name__ <$> funcs)
  ∧ dom dict' = dom dict ∪ list_to_set (__name__ <$> funcs).
Proof.
  revert dict w. induction funcs as [|func funcs IH]; intros dict w; simpl.
  - intros [= <- <-]. split; [exists []; by rewrite app_nil_r | set_solver].
  - unfold bind. rewrite make_c_binding_eq. cbv zeta.
    destruct (_CDLL w) as [c|]; [|done]. case_bool_decide; [|done].
    intros Hrest. apply IH in Hrest as ((ws & Hws & Ha & Hr) & Hdom). split.
    + eexists (_ :: _ :: ws). rewrite Hws, configured_sig_writes, <- app_assoc.
      split; [done|]. simpl. by rewrite Ha, Hr.
    + rewrite Hdom, dom_insert_L. set_solver.
Qed.

Lemma class_body_total (funcs : list pyfunc) (dict : gmap string cbind_closure)
    (w : world) (c : CDLL) :
  _CDLL w = Some c →
  Forall (fun func => PGM_ (__name__ func) ∈ exports c) funcs →
  ∃ dict' w', PowerGridCore.class_body funcs dict w = (Ok dict', w').
Proof.
  intros Hc Hall. revert dict w c Hc Hall.
  induction funcs as [|func funcs IH]; intros dict w c Hc Hall; simpl.
  - by eexists _, _.
  - apply Forall_cons in Hall as [Hin Hall].
    unfold bind. rewrite make_c_binding_eq. cbv zeta.
    rewrite Hc, bool_decide_eq_true_2 by done.
    eapply IH; [reflexivity | exact Hall].
Qed.

(** [__init__]: frames, what a successful run has done, and when it succeeds. *)
Lemma functor_init_unchanged (handle : value) (name : string)
    (c_argtypes : list pytype) (c_restype : pytype) (w : world) :
  (WrapperFunc.__init__ handle name c_argtypes c_restype w).2 = w.
Proof.
  unfold WrapperFunc.__init__, bind. rewrite getattr_CDLL_eq.
  destruct (_CDLL w); [|done]. by case_bool_decide.
Qed.

Lemma __init__body_frame (self : PowerGridCore_t)
    (item : string * PowerGridCore.annotation) :
  preserves (same calls) (PowerGridCore.__init__body self item)
  ∧ preserves (same dlopens) (PowerGridCore.__init__body self item)
  ∧ preserves same_library (PowerGridCore.__init__body self item).
Proof.
  destruct item as [name function]. unfold PowerGridCore.__init__body.
  split_and!; frame;
    first [ apply set_argtypes_frame | apply set_restype_frame
          | intros w; by rewrite functor_init_unchanged ].
Qed.

Lemma __init__loop_frame (items : list (string * PowerGridCore.annotation))
    (self : PowerGridCore_t) :
  preserves (same calls) (PowerGridCore.__init__loop items self)
  ∧ preserves (same dlopens) (PowerGridCore.__init__loop items self)
  ∧ preserves same_library (PowerGridCore.__init__loop items self).
Proof.
  revert self. induction items as [|item items IH]; intros self; simpl.
  - split_and!; frame.
  - split_and!; frame_step; first [apply __init__body_frame | apply IH].
Qed.

Lemma bound_names_cons (name : string) (function : PowerGridCore.annotation)
    (items : list (string * PowerGridCore.annotation)) :
  bound_names ((name, function) :: items)
  = if startswith name "_" then bound_names items else name :: bound_names items.
Proof. unfold bound_names. simpl. by destruct (startswith name "_"). Qed.

Lemma __init__loop_ok (items : list (string * PowerGridCore.annotation))
    (self self' : PowerGridCore_t) (w w' : world) :
  PowerGridCore.__init__loop items self w = (Ok self', w') →
  _handle self' = _handle self
  ∧ (functors_of_session self → functors_of_session self')
  ∧ dom (attrs self') = dom (attrs self) ∪ list_to_set (bound_names items)
  ∧ ∃ ws, sig_writes w' = sig_writes w ++ ws
          ∧ argtypes_assigned ws = PGM_ <$> bound_names items
          ∧ restype_assigned ws = PGM_ <$> bound_names items.
Proof.
  revert self w. induction items as [|[name function] items IH]; intros self w.
  - simpl. intros [= <- <-]. split_and!; [done|done|set_solver|].
    exists []. by rewrite app_nil_r.
  - cbn [PowerGridCore.__init__loop]. rewrite bound_names_cons. unfold bind at 1.
    destruct (startswith name "_") eqn:Hn.
    { rewrite __init__body_skip by done. simpl. apply IH. }
    destruct function as [args|cls].
    2:{ unfold PowerGridCore.__init__body. rewrite Hn. by unfold bind, lift. }
    destruct (last args) as [r|] eqn:Hr.
    2:{ unfold PowerGridCore.__init__body. rewrite Hn. unfold bind, lift. by rewrite Hr. }
    rewrite (__init__body_eq self name args r w Hn Hr). cbv zeta.
    destruct (_CDLL w) as [c|]; [|done]. case_bool_decide; [|done].
    intros Hrest. apply IH in Hrest as (Hh & Hinv & Hdom & ws & Hws & Ha & Hr').
    split_and!.
    + by rewrite Hh.
    + intros Hself. apply Hinv. intros n wf. unfold setattr. simpl.
      destruct (decide (name = n)) as [<-|Hne].
      * rewrite lookup_insert_eq. by intros [= <-].
      * rewrite lookup_insert_ne by done. apply Hself.
    + rewrite Hdom. unfold setattr. simpl. rewrite dom_insert_L. set_solver.
    + eexists (_ :: _ :: ws). rewrite Hws, configured_sig_writes, <- app_assoc.
      split; [done|]. simpl. by rewrite Ha, Hr'.
Qed.

Lemma __init__loop_total (items : list (string * PowerGridCore.annotation))
    (self : PowerGridCore_t) (w : world) (c : CDLL) :
  _CDLL w = Some c →
  Forall processable items →
  Forall (fun name => PGM_ name ∈ exports c) (bound_names items) →
  ∃ self' w', PowerGridCore.__init__loop items self w = (Ok self', w').
Proof.
  revert self w c. induction items as [|[name function] items IH];
    intros self w c Hc Hproc Hexp.
  - by eexists _, _.
  - apply Forall_cons in Hproc as [Hitem Hproc].
    rewrite bound_names_cons in Hexp.
    cbn [PowerGridCore.__init__loop]. unfold bind at 1.
    destruct (startswith name "_") eqn:Hn.
    { rewrite __init__body_skip by done. simpl. by eapply IH. }
    destruct Hitem as [Hskip|(args & r & Hfun & Hr)];
      [simpl in Hskip; congruence|].
    simpl in Hfun. subst function. apply Forall_cons in Hexp as [Hin Hexp].
    rewrite (__init__body_eq self name args r w Hn Hr). cbv zeta.
    rewrite Hc, bool_decide_eq_true_2 by done.
    eapply IH; [reflexivity | done | done].
Qed.

Lemma annotations_processable : Forall processable PowerGridCore.__annotations__.
Proof.
  unfold PowerGridCore.__annotations__.
  apply Forall_cons_2; [by left|].
  repeat (apply Forall_cons_2; [right; by eexists _, _|]). apply Forall_nil_2.
Qed.

Section session.
Context {R : Runtime}.

Lemma __new___eq (w : world) :
  PowerGridCore.__new__ w =
  match _CDLL w with
  | None => (Raise (NameError "_CDLL"), w)
  | Some c =>
      if bool_decide ("PGM_create_handle" ∈ exports c)
      then (match foreign (calls w) "PGM_create_handle" [] with
            | Ok handle => Ok (mkPowerGridCore handle ∅)
            | Raise e => Raise e
            end,
            log_call ("PGM_create_handle", []) w)
      else (Raise (AttributeError "PGM_create_handle"), w)
  end.
Proof.
  unfold PowerGridCore.__new__, bind. rewrite getattr_CDLL_eq.
  destruct (_CDLL w) as [c|]; [|done]. case_bool_decide; [|done].
  unfold cfunc_call. by destruct (foreign _ _ _).
Qed.

Lemma __del___eq (self : PowerGridCore_t) (w : world) :
  PowerGridCore.__del__ self w =
  match _CDLL w with
  | None => (Raise (NameError "_CDLL"), w)
  | Some c =>
      if bool_decide ("PGM_destroy_handle" ∈ exports c)
      then (foreign (calls w) "PGM_destroy_handle" [_handle self],
            log_call ("PGM_destroy_handle", [_handle self]) w)
      else (Raise (AttributeError "PGM_destroy_handle"), w)
  end.
Proof.
  unfold PowerGridCore.__del__, bind. rewrite getattr_CDLL_eq.
  destruct (_CDLL w) as [c|]; [|done]. by case_bool_decide.
Qed.

(** What a successful [PowerGridCore()] has done. *)
Lemma construct_ok (self : PowerGridCore_t) (w w1 : world) :
  PowerGridCore.construct w = (Ok self, w1) →
  foreign (calls w) "PGM_create_handle" [] = Ok (_handle self)
  ∧ calls w1 = calls w ++ [("PGM_create_handle", [])]
  ∧ functors_of_session self
  ∧ dom (attrs self) = list_to_set (bound_names PowerGridCore.__annotations__)
  ∧ ∃ ws, sig_writes w1 = sig_writes w ++ ws
          ∧ argtypes_assigned ws = PGM_ <$> bound_names PowerGridCore.__annotations__
          ∧ restype_assigned ws = PGM_ <$> bound_names PowerGridCore.__annotations__.
Proof.
  unfold PowerGridCore.construct, bind. rewrite __new___eq.
  destruct (_CDLL w) as [c|]; [|done]. case_bool_decide; [|done].
  destruct (foreign (calls w) "PGM_create_handle" []) as [h|] eqn:Hh; [|done].
  intros Hinit. unfold PowerGridCore.__init__ in Hinit.
  pose proof (proj1 (__init__loop_frame PowerGridCore.__annotations__
                       (mkPowerGridCore h ∅))
                    (log_call ("PGM_create_handle", []) w)) as Hcalls.
  rewrite Hinit in Hcalls. unfold same in Hcalls. simpl in Hcalls.
  apply __init__loop_ok in Hinit as (Hhandle & Hinv & Hdom & Hws).
  simpl in Hhandle. split_and!.
  - by rewrite Hhandle.
  - done.
  - apply Hinv. intros n wf. simpl. by rewrite lookup_empty.
  - rewrite Hdom. simpl. rewrite dom_empty_L. set_solver.
  - exact Hws.
Qed.

(** [PowerGridCore()] succeeds on a loaded library that exports what the
    class names, as soon as the engine hands out a handle. *)
Lemma construct_total (w : world) (c : CDLL) (handle : value) :
  _CDLL w = Some c →
  "PGM_create_handle" ∈ exports c →
  Forall (fun name => PGM_ name ∈ exports c)
         (bound_names PowerGridCore.__annotations__) →
  foreign (calls w) "PGM_create_handle" [] = Ok handle →
  ∃ self w1, PowerGridCore.construct w = (Ok self, w1).
Proof.
  intros Hc Hin Hexp Hh. unfold PowerGridCore.construct, bind.
  rewrite __new___eq, Hc, bool_decide_eq_true_2, Hh by done.
  unfold PowerGridCore.__init__.
  eapply __init__loop_total; [exact Hc | apply annotations_processable | exact Hexp].
Qed.

Lemma construct_frame :
  preserves (same dlopens) PowerGridCore.construct
  ∧ preserves same_library PowerGridCore.construct.
Proof.
  unfold PowerGridCore.construct, PowerGridCore.__new__, PowerGridCore.__init__.
  split; frame; first [apply preserves_getattr_CDLL; tc_solve | apply __init__loop_frame].
Qed.

(** A call through the session leaves the typing, the library and the open
    trace alone. *)
Lemma invoke_frame (b : binding) (self : PowerGridCore_t) (args : list value) :
  preserves (same _CDLL) (invoke b self args)
  ∧ preserves (same sig_writes) (invoke b self args)
  ∧ preserves (same dlopens) (invoke b self args).
Proof.
  split_and!; intros w; rewrite invoke_eq;
    (destruct (marshal_all _); [|done]); (destruct ((b_cfunc b w).1); done).
Qed.





End session.

(** ** Loading the library and importing the module *)

Lemma assign_argtypes_eq (c : CDLL) (sym : string) (tys : list pytype) (w : world) :
  assign_argtypes c sym tys w =
  if bool_decide (sym ∈ exports c)
  then (Ok (mkCDLL (exports c) (<[sym := tys]> (argtypes c)) (restype c)),
        log_sig_write (W_argtypes sym tys) w)
  else (Raise (AttributeError sym), w).
Proof.
  unfold assign_argtypes, bind, lift, update, ret, cdll_getattr. by case_bool_decide.
Qed.

Lemma assign_restype_eq (c : CDLL) (sym : string) (ty : pytype) (w : world) :
  assign_restype c sym ty w =
  if bool_decide (sym ∈ exports c)
  then (Ok (mkCDLL (exports c) (argtypes c) (<[sym := ty]> (restype c))),
        log_sig_write (W_restype sym ty) w)
  else (Raise (AttributeError sym), w).
Proof.
  unfold assign_restype, bind, lift, update, ret, cdll_getattr. by case_bool_decide.
Qed.

Lemma _load_core_eq (w : world) :
  _load_core w =
  match shared_libs w !! dll_file w with
  | None => (Raise (OSError (dll_file w)), log_dlopen (dll_file w) w)
  | Some syms =>
      let w1 := log_dlopen (dll_file w) w in
      let w2 := log_sig_write (W_restype "PGM_create_handle" HandlePtr)
                  (log_sig_write (W_argtypes "PGM_create_handle" []) w1) in
      if bool_decide ("PGM_create_handle" ∈ syms) then
        if bool_decide ("PGM_destroy_handle" ∈ syms) then
          (Ok (mkCDLL syms
                 (<["PGM_destroy_handle" := [HandlePtr]]>
                    (<["PGM_create_handle" := []]> ∅))
                 (<["PGM_destroy_handle" := py_None]>
                    (<["PGM_create_handle" := HandlePtr]> ∅))),
           log_sig_write (W_restype "PGM_destroy_handle" py_None)
             (log_sig_write (W_argtypes "PGM_destroy_handle" [HandlePtr]) w2))
        else (Raise (AttributeError "PGM_destroy_handle"), w2)
      else (Raise (AttributeError "PGM_create_handle"), w1)
  end.
Proof.
  unfold _load_core, bind at 1. unfold platform_system_call.
  fold (dll_file w). unfold bind at 1. unfold CDLL_open.
  destruct (shared_libs w !! dll_file w) as [syms|]; [|done]. cbv zeta.
  unfold bind at 1. rewrite assign_argtypes_eq. cbn [exports argtypes restype].
  case_bool_decide; [|done].
  unfold bind at 1. rewrite assign_restype_eq. cbn [exports argtypes restype].
  rewrite bool_decide_eq_true_2 by done.
  unfold bind at 1. rewrite assign_argtypes_eq. cbn [exports argtypes restype].
  case_bool_decide; [|done].
  unfold bind at 1. rewrite assign_restype_eq. cbn [exports argtypes restype].
  by rewrite bool_decide_eq_true_2.
Qed.

Section import.
Context {R : Runtime}.

(** Importing the module opens the library once, whatever happens next. *)
Lemma import_dlopens (w : world) :
  dlopens (import_module w).2 = dlopens w ++ [dll_file w].
Proof.
  unfold import_module. unfold bind at 1. rewrite _load_core_eq.
  destruct (shared_libs w !! dll_file w) as [syms|]; [|done]. cbv zeta.
  case_bool_decide; [|done]. case_bool_decide; [|done].
  set (c0 := mkCDLL _ _ _). set (w2 := log_sig_write _ _).
  assert (preserves (same dlopens)
            (update (set_CDLL (Some c0));;;
             dict <- PowerGridCore.class_body PowerGridCore.decorated ∅;;
             instance <- PowerGridCore.construct;;
             ret (mkModule dict instance))) as Hrest.
  { frame; first [apply class_body_frame | apply construct_frame]. }
  specialize (Hrest w2). unfold same in Hrest. by rewrite Hrest.
Qed.

(** What a successful import has done. *)
Lemma import_ok (m : module_globals) (w w' : world) :
  import_module w = (Ok m, w') →
  (∃ ws, sig_writes w' = sig_writes w ++ ws
         ∧ argtypes_assigned ws = configured_symbols
         ∧ restype_assigned ws = configured_symbols)
  ∧ calls w' = calls w ++ [("PGM_create_handle", [])]
  ∧ foreign (calls w) "PGM_create_handle" [] = Ok (_handle (power_grid_core m))
  ∧ functors_of_session (power_grid_core m)
  ∧ dom (PowerGridCore_dict m) = list_to_set (__name__ <$> PowerGridCore.decorated)
  ∧ dom (attrs (power_grid_core m))
    = list_to_set (bound_names PowerGridCore.__annotations__)
  ∧ ∃ c, _CDLL w' = Some c
         ∧ shared_libs w !! dll_file w = Some (exports c)
         ∧ "PGM_destroy_handle" ∈ exports c.
Proof.
  unfold import_module. unfold bind at 1. rewrite _load_core_eq.
  destruct (shared_libs w !! dll_file w) as [syms|] eqn:Hlib; [|done]. cbv zeta.
  case_bool_decide as Hcreate; [|done]. case_bool_decide as Hdestroy; [|done].
  set (c0 := mkCDLL _ _ _). set (w2 := log_sig_write _ _).
  unfold bind at 1. unfold update at 1. unfold bind at 1.
  destruct (PowerGridCore.class_body PowerGridCore.decorated ∅ (set_CDLL (Some c0) w2))
    as [[dict|e] w3] eqn:Hbody; [|done].
  unfold bind at 1.
  destruct (PowerGridCore.construct w3) as [[instance|e] w4] eqn:Hcons; [|done].
  intros [= <- <-]. simpl.
  destruct (class_body_frame PowerGridCore.decorated ∅) as (Fc & _ & Fl).
  specialize (Fc (set_CDLL (Some c0) w2)). specialize (Fl (set_CDLL (Some c0) w2)).
  rewrite Hbody in Fc, Fl. unfold same in Fc. unfold same_library in Fl.
  simpl in Fc, Fl.
  apply class_body_ok in Hbody as ((ws1 & Hws1 & Ha1 & Hr1) & Hdom1).
  pose proof (proj2 construct_frame w3) as Fl'. rewrite Hcons in Fl'.
  unfold same_library in Fl'. simpl in Fl'. rewrite Fl in Fl'.
  apply construct_ok in Hcons as (Hh & Hcalls & Hinv & Hdom2 & ws2 & Hws2 & Ha2 & Hr2).
  rewrite Fc in Hh, Hcalls. split_and!.
  - eexists (_ :: _ :: _ :: _ :: ws1 ++ ws2).
    rewrite Hws2, Hws1. simpl. rewrite <- !app_assoc. simpl. split; [done|].
    rewrite argtypes_assigned_app, restype_assigned_app, Ha1, Ha2, Hr1, Hr2.
    by unfold configured_symbols.
  - done.
  - done.
  - done.
  - rewrite Hdom1. set_solver.
  - done.
  - destruct (_CDLL w4) as [c|]; [|done]. injection Fl' as Hexp.
    exists c. rewrite Hexp. done.
Qed.

(** The import succeeds when the library file is there, exports every
    symbol the module names, and the engine hands out a handle. *)
Lemma import_total (w : world) (syms : gset string) (handle : value) :
  shared_libs w !! dll_file w = Some syms →
  Forall (fun sym => sym ∈ syms) configured_symbols →
  foreign (calls w) "PGM_create_handle" [] = Ok handle →
  ∃ m w', import_module w = (Ok m, w').
Proof.
  intros Hlib Hsyms Hh. unfold configured_symbols in Hsyms.
  apply Forall_cons in Hsyms as [Hcreate Hsyms].
  apply Forall_cons in Hsyms as [Hdestroy Hsyms].
  apply Forall_app in Hsyms as [Hdec Hann].
  unfold import_module. unfold bind at 1. rewrite _load_core_eq, Hlib. cbv zeta.
  rewrite !bool_decide_eq_true_2 by done.
  set (c0 := mkCDLL _ _ _). set (w2 := log_sig_write _ _).
  unfold bind at 1. unfold update at 1. unfold bind at 1.
  destruct (class_body_total PowerGridCore.decorated ∅ (set_CDLL (Some c0) w2) c0)
    as (dict & w3 & Hbody); [done| |].
  { apply Forall_fmap in Hdec. exact Hdec. }
  destruct (class_body_frame PowerGridCore.decorated ∅) as (Fc & _ & Fl).
  specialize (Fc (set_CDLL (Some c0) w2)). specialize (Fl (set_CDLL (Some c0) w2)).
  rewrite Hbody in Fc, Fl. unfold same in Fc. unfold same_library in Fl.
  simpl in Fc, Fl. rewrite Hbody. unfold bind at 1.
  destruct (_CDLL w3) as [c3|] eqn:Hc3; [|done]. injection Fl as Hexp.
  destruct (construct_total w3 c3 handle) as (instance & w4 & Hcons).
  - done.
  - by rewrite Hexp.
  - rewrite Hexp. apply Forall_fmap in Hann. exact Hann.
  - by rewrite Fc.
  - rewrite Hcons. by eexists _, _.
Qed.

End import.

(** ** The session handle *)



(** ** Loading the library *)

(** C8: importing the module opens the library file exactly once, and
    neither constructing a session, nor invoking a binding, nor tearing a
    session down opens anything; when [_load_core] returns, [argtypes] and
    [restype] of [PGM_create_handle] and [PGM_destroy_handle] are assigned,
    and it does return on a file that exports both; when the file cannot be
    loaded, [_load_core] raises [OSError] after that one attempt, no other
    file is tried, nothing else has changed, and the import fails with the
    same error. *)
Theorem library_loaded_once_and_failure_is_fatal {R : Runtime} (w : world) :
  dlopens (import_module w).2 = dlopens w ++ [dll_file w]
  ∧ dlopens (PowerGridCore.construct w).2 = dlopens w
  ∧ (∀ b self args, dlopens (invoke b self args w).2 = dlopens w)
  ∧ (∀ self, dlopens (PowerGridCore.__del__ self w).2 = dlopens w)
  ∧ (∀ cdll w', _load_core w = (Ok cdll, w') →
       argtypes cdll !! "PGM_create_handle" = Some []
       ∧ restype cdll !! "PGM_create_handle" = Some HandlePtr
       ∧ argtypes cdll !! "PGM_destroy_handle" = Some [HandlePtr]
       ∧ restype cdll !! "PGM_destroy_handle" = Some py_None
       ∧ shared_libs w !! dll_file w = Some (exports cdll)
       ∧ dlopens w' = dlopens w ++ [dll_file w])
  ∧ (∀ syms, shared_libs w !! dll_file w = Some syms →
       "PGM_create_handle" ∈ syms → "PGM_destroy_handle" ∈ syms →
       ∃ cdll w', _load_core w = (Ok cdll, w'))
  ∧ (shared_libs w !! dll_file w = None →
       _load_core w = (Raise (OSError (dll_file w)), log_dlopen (dll_file w) w)
       ∧ import_module w = (Raise (OSError (dll_file w)), log_dlopen (dll_file w) w))
  ∧ dll_file w = (if decide (platform_system w = "Windows")
                  then "_power_grid_core.dll" else "_power_grid_core.so").
Proof.
  split_and!.
  - apply import_dlopens.
  - apply construct_frame.
  - intros b self args. apply invoke_frame.
  - intros self. rewrite __del___eq. destruct (_CDLL w); [|done]. by case_bool_decide.
  - intros cdll w'. rewrite _load_core_eq.
    destruct (shared_libs w !! dll_file w) as [syms|]; [|done]. cbv zeta.
    case_bool_decide; [|done]. case_bool_decide; [|done].
    intros [= <- <-]. simpl. split_and!; done.
  - intros syms Hlib H1 H2. rewrite _load_core_eq, Hlib. cbv zeta.
    rewrite !bool_decide_eq_true_2 by done. by eexists _, _.
  - intros Hlib. unfold import_module, bind. by rewrite _load_core_eq, Hlib.
  - done.
Qed.

(** * Further properties *)

(** ** Which names count as destructors *)

Lemma prefix_spec (a b : string) :
  String.prefix a b = true ↔ ∃ post, b = a +:+ post.
Proof.
  revert b. induction a as [|x a IH]; intros b.
  - destruct b; simpl; split; eauto.
  - destruct b as [|y b]; simpl.
    + split; [done|]. by intros [post Hpost].
    + destruct (Ascii.ascii_dec x y) as [->|Hne].
      * rewrite IH. split; intros [post Hpost]; exists post.
        -- change (String y a +:+ post) with (String y (a +:+ post)). by rewrite Hpost.
        -- change (String y a +:+ post) with (String y (a +:+ post)) in Hpost.
           by injection Hpost.
      * split; [done|]. intros [post Hpost].
        change (String x a +:+ post) with (String x (a +:+ post)) in Hpost.
        by injection Hpost.
Qed.

Lemma str_in_app (sub pre post : string) : str_in sub (pre +:+ sub +:+ post) = true.
Proof.
  induction pre as [|x pre IH].
  - change ("" +:+ sub +:+ post) with (sub +:+ post).
    assert (String.prefix sub (sub +:+ post) = true) as Hp
      by (apply prefix_spec; eauto).
    destruct (sub +:+ post);
      [change (str_in sub "") with (String.prefix sub "" || false)
      |match goal with
       | |- str_in sub (String ?a ?t) = true =>
           change (str_in sub (String a t))
             with (String.prefix sub (String a t) || str_in sub t)
       end];
      by rewrite Hp.
  - change (String x pre +:+ sub +:+ post) with (String x (pre +:+ sub +:+ post)).
    change (str_in sub (String x (pre +:+ sub +:+ post)))
      with (String.prefix sub (String x (pre +:+ sub +:+ post))
            || str_in sub (pre +:+ sub +:+ post)).
    rewrite IH. apply orb_true_r.
Qed.

Lemma str_in_spec (sub s : string) :
  str_in sub s = true ↔ ∃ pre post, s = pre +:+ sub +:+ post.
Proof.
  split.
  - induction s as [|x s IH].
    + change (str_in sub "") with (String.prefix sub "" || false).
      rewrite orb_false_r. intros Hp. apply prefix_spec in Hp as [post ->].
      by exists "", post.
    + change (str_in sub (String x s))
        with (String.prefix sub (String x s) || str_in sub s).
      intros [Hp|Hin]%orb_true_iff.
      * apply prefix_spec in Hp as [post ->]. by exists "", post.
      * destruct (IH Hin) as (pre & post & ->). by exists (String x pre), post.
  - intros (pre & post & ->). apply str_in_app.
Qed.

(** X1: the destructor role is a substring test.  When "destroy" occurs
    somewhere in a name (at the start, in the middle or at the end), every
    binding of that name calls its function object with the marshaled
    arguments alone, and both generators assign it the wire argument types
    alone; when it occurs nowhere, the handle comes first in the call and
    [HandlePtr] first in the assigned argument types. *)
Theorem destructor_role_is_substring_test {R : Runtime} (name : string) :
  ((∃ pre post, name = pre +:+ "destroy" +:+ post) →
     (∀ b self args ins f w,
        b_name b = name → marshal_all (zip args (b_argtypes b)) = Ok ins →
        (b_cfunc b w).1 = Ok f →
        calls (invoke b self args w).2 = calls w ++ [(f, ins)])
     ∧ (∀ func w f w',
          __name__ func = name → make_c_binding func w = (Ok f, w') →
          (_CDLL w' ≫= fun c => argtypes c !! PGM_ name) = Some (cb_c_argtypes f))
     ∧ (∀ self args w self' w',
          startswith name "_" = false →
          PowerGridCore.__init__body self (name, PowerGridCore.GenericAlias args) w
          = (Ok self', w') →
          ∃ wf, attrs self' !! name = Some wf
                ∧ (_CDLL w' ≫= fun c => argtypes c !! PGM_ name)
                  = Some (WrapperFunc._c_argtypes wf)))
  ∧ ((∀ pre post, name ≠ pre +:+ "destroy" +:+ post) →
     (∀ b self args ins f w,
        b_name b = name → marshal_all (zip args (b_argtypes b)) = Ok ins →
        (b_cfunc b w).1 = Ok f →
        calls (invoke b self args w).2 = calls w ++ [(f, b_handle b self :: ins)])
     ∧ (∀ func w f w',
          __name__ func = name → make_c_binding func w = (Ok f, w') →
          (_CDLL w' ≫= fun c => argtypes c !! PGM_ name)
          = Some (HandlePtr :: cb_c_argtypes f))
     ∧ (∀ self args w self' w',
          startswith name "_" = false →
          PowerGridCore.__init__body self (name, PowerGridCore.GenericAlias args) w
          = (Ok self', w') →
          ∃ wf, attrs self' !! name = Some wf
                ∧ (_CDLL w' ≫= fun c => argtypes c !! PGM_ name)
                  = Some (HandlePtr :: WrapperFunc._c_argtypes wf))).
Proof.
  assert (Hrun : ∀ (d : bool), str_in "destroy" name = d →
    (∀ b self args ins f w,
        b_name b = name → marshal_all (zip args (b_argtypes b)) = Ok ins →
        (b_cfunc b w).1 = Ok f →
        calls (invoke b self args w).2
        = calls w ++ [(f, (if d then [] else [b_handle b self]) ++ ins)])
     ∧ (∀ func w f w',
          __name__ func = name → make_c_binding func w = (Ok f, w') →
          (_CDLL w' ≫= fun c => argtypes c !! PGM_ name)
          = Some (if d then cb_c_argtypes f else HandlePtr :: cb_c_argtypes f))
     ∧ (∀ self args w self' w',
          startswith name "_" = false →
          PowerGridCore.__init__body self (name, PowerGridCore.GenericAlias args) w
          = (Ok self', w') →
          ∃ wf, attrs self' !! name = Some wf
                ∧ (_CDLL w' ≫= fun c => argtypes c !! PGM_ name)
                  = Some (if d then WrapperFunc._c_argtypes wf
                          else HandlePtr :: WrapperFunc._c_argtypes wf))).
  { intros d Hd. split_and!.
    - intros b self args ins f w Hb Hins Hf.
      rewrite invoke_eq, Hins, Hf. cbv zeta. unfold handle_prefix.
      by rewrite Hb, Hd.
    - intros func w f w' Hname. rewrite make_c_binding_eq. cbv zeta.
      destruct (_CDLL w) as [c|]; [|done]. case_bool_decide; [|done].
      intros [= <- <-]. simpl. rewrite Hname, lookup_insert_eq.
      unfold native_argtypes. by rewrite Hd.
    - intros self args w self' w' Hn.
      destruct (last args) as [r|] eqn:Hr.
      2:{ unfold PowerGridCore.__init__body. rewrite Hn. unfold bind, lift.
          by rewrite Hr. }
      rewrite (__init__body_eq self name args r w Hn Hr). cbv zeta.
      destruct (_CDLL w) as [c|]; [|done]. case_bool_decide; [|done].
      intros [= <- <-]. eexists. split; [apply lookup_insert_eq|].
      simpl. rewrite lookup_insert_eq. unfold native_argtypes. by rewrite Hd. }
  split.
  - intros Hsub. apply str_in_spec in Hsub. exact (Hrun true Hsub).
  - intros Hno. apply (Hrun false).
    destruct (str_in "destroy" name) eqn:Hin; [|done].
    apply str_in_spec in Hin as (pre & post & ->). by destruct (Hno pre post).
Qed.

(** ** Errors around the foreign call *)
Lemma marshal_all_fail {R : Runtime} (pairs : list (value * pytype)) (i : nat)
    (arg : value) (ty : pytype) (e : exn) :
  pairs !! i = Some (arg, ty) → marshal_arg arg ty = Raise e →
  (∃ e', marshal_all pairs = Raise e')
  ∧ ((∀ j a t, (j < i)%nat → pairs !! j = Some (a, t) → ∃ v, marshal_arg a t = Ok v) →
     marshal_all pairs = Raise e).
Proof.
  revert i. induction pairs as [|[a t] pairs IH]; intros i; [done|].
  destruct i as [|i]; simpl.
  - intros [= -> ->] He. rewrite He. eauto.
  - intros Hi He. destruct (IH i Hi He) as [[e' He'] Hfirst]. split.
    + destruct (marshal_arg a t); [|eauto]. rewrite He'. eauto.
    + intros Hbefore. destruct (Hbefore 0%nat a t) as [v ->]; [lia|done|].
      rewrite Hfirst; [done|]. intros j a' t' Hj. apply (Hbefore (S j)). lia.
Qed.

(** X2: when an argument standing in a text position cannot be encoded (it
    is not a [str], or [str.encode] raises), the binding raises and the
    state is exactly as before: no foreign call is made and nothing is looked
    up or assigned on the library; the exception is that argument's own when
    every text-position argument before it encodes. *)
Theorem failed_encoding_prevents_the_call {R : Runtime}
    (b : binding) (self : PowerGridCore_t) (args : list value) (w : world)
    (i : nat) (arg : value) (e : exn) :
  args !! i = Some arg →
  b_argtypes b !! i = Some c_char_p →
  encode arg = Raise e →
  (∃ e', invoke b self args w = (Raise e', w))
  ∧ ((∀ j a, (j < i)%nat → args !! j = Some a → b_argtypes b !! j = Some c_char_p →
        ∃ v, encode a = Ok v) →
     invoke b self args w = (Raise e, w)).
Proof.
  intros Ha Ht He.
  assert (zip args (b_argtypes b) !! i = Some (arg, c_char_p)) as Hi.
  { apply lookup_zip_with_Some. eauto. }
  assert (marshal_arg arg c_char_p = Raise e) as Hm.
  { unfold marshal_arg. by rewrite decide_True. }
  destruct (marshal_all_fail _ i arg c_char_p e Hi Hm) as [[e' He'] Hfirst].
  split.
  - exists e'. by rewrite invoke_eq, He'.
  - intros Hbefore. rewrite invoke_eq, Hfirst; [done|].
    intros j a t Hj Hjt. apply lookup_zip_with_Some in Hjt as (a' & t' & Heq & Ha' & Ht').
    simplify_eq. unfold marshal_arg. case_decide as Hty; [|eauto].
    subst. by eapply Hbefore.
Qed.

Lemma failed_encoding_prevents_the_call_witness :
  let b := Decorated demo_meta_component_name in
  let args := [VInt 2; VInt 2] in
  args !! 0%nat = Some (VInt 2)
  ∧ b_argtypes b !! 0%nat = Some c_char_p
  ∧ encode (R := demo_runtime) (VInt 2) = Raise (AttributeError "encode")
  ∧ ∃ e', invoke (R := demo_runtime) b demo_session args demo_loaded
          = (Raise e', demo_loaded).
Proof.
  cbv zeta.
  assert (H1 : [VInt 2; VInt 2] !! 0%nat = Some (VInt 2)) by reflexivity.
  assert (H2 : b_argtypes (Decorated demo_meta_component_name) !! 0%nat
               = Some c_char_p) by reflexivity.
  assert (H3 : encode (R := demo_runtime) (VInt 2) = Raise (AttributeError "encode"))
    by reflexivity.
  split; [exact H1|]. split; [exact H2|]. split; [exact H3|].
  exact (proj1 (failed_encoding_prevents_the_call (R := demo_runtime)
                  (Decorated demo_meta_component_name) demo_session
                  [VInt 2; VInt 2] demo_loaded 0 (VInt 2) _ H1 H2 H3)).
Defined.

(** X3: when the wire return type is [c_char_p] and the foreign call hands
    back anything but [bytes] (ctypes gives [None] for a null pointer), the
    binding raises [AttributeError] from [res.decode()]; the foreign call has
    been made by then and stays in the trace. *)
Theorem text_result_that_is_not_bytes_raises {R : Runtime}
    (b : binding) (self : PowerGridCore_t) (args ins : list value)
    (f : string) (res : value) (w : world) :
  b_restype b = c_char_p →
  marshal_all (zip args (b_argtypes b)) = Ok ins →
  (b_cfunc b w).1 = Ok f →
  foreign (calls w) f (handle_prefix (b_name b) (b_handle b self) ++ ins) = Ok res →
  (∀ bs, res ≠ VBytes bs) →
  invoke b self args w
  = (Raise (AttributeError "decode"),
     log_call (f, handle_prefix (b_name b) (b_handle b self) ++ ins) w).
Proof.
  intros Hty Hins Hf Hres Hnot. rewrite invoke_eq, Hins, Hf. cbv zeta.
  rewrite Hres. unfold convert_result. rewrite decide_True by done.
  destruct res; try done. by destruct (Hnot b0).
Qed.

Lemma text_result_that_is_not_bytes_raises_witness :
  let b := Decorated demo_meta_component_name in
  let args := [VStr "input"; VInt 2] in
  let inputs := [demo_handle; VBytes (String.list_byte_of_string "input"); VInt 2] in
  b_restype b = c_char_p
  ∧ (b_cfunc b demo_loaded).1 = Ok "PGM_meta_component_name"
  ∧ foreign (Runtime := demo_runtime) (calls demo_loaded)
            "PGM_meta_component_name" inputs = Ok (VInt 0)
  ∧ invoke (R := demo_runtime) b demo_session args demo_loaded
    = (Raise (AttributeError "decode"),
       log_call ("PGM_meta_component_name", inputs) demo_loaded).
Proof.
  cbv zeta.
  assert (H1 : b_restype (Decorated demo_meta_component_name) = c_char_p)
    by reflexivity.
  assert (H2 : marshal_all (R := demo_runtime)
                 (zip [VStr "input"; VInt 2]
                      (b_argtypes (Decorated demo_meta_component_name)))
               = Ok [VBytes (String.list_byte_of_string "input"); VInt 2])
    by reflexivity.
  assert (H3 : (b_cfunc (Decorated demo_meta_component_name) demo_loaded).1
               = Ok "PGM_meta_component_name") by (by vm_compute).
  assert (H4 : foreign (Runtime := demo_runtime) (calls demo_loaded)
                 "PGM_meta_component_name"
                 (handle_prefix (b_name (Decorated demo_meta_component_name))
                    (b_handle (Decorated demo_meta_component_name) demo_session)
                  ++ [VBytes (String.list_byte_of_string "input"); VInt 2])
               = Ok (VInt 0)) by reflexivity.
  assert (H5 : ∀ bs, VInt 0 ≠ VBytes bs) by (intros bs; discriminate).
  split; [exact H1|]. split; [exact H3|]. split; [exact H4|].
  exact (text_result_that_is_not_bytes_raises (R := demo_runtime)
           (Decorated demo_meta_component_name) demo_session
           [VStr "input"; VInt 2] _ _ _ demo_loaded H1 H2 H3 H4 H5).
Defined.

(** ** The two generators derive the same typing *)

Lemma wire_type_cases (x : pytype) :
  (x = py_str ∧ wire_type x = c_char_p)
  ∨ (x = py_int ∧ wire_type x = IdxC)
  ∨ (x = py_float ∧ wire_type x = c_double)
  ∨ wire_type x = x.
Proof.
  unfold wire_type.
  destruct (decide (x = py_str)) as [->|Hs]; [left; by split|].
  destruct (decide (x = py_int)) as [->|Hi]; [right; left; by split|].
  destruct (decide (x = py_float)) as [->|Hf]; [right; right; left; by split|].
  right; right; right. apply dict_get_absent. by apply mapping_absent.
Qed.

Lemma wire_restype_NoneType (name : string) (r : pytype) :
  wire_restype name r = py_NoneType ↔ r = py_NoneType.
Proof.
  unfold wire_restype.
  destruct (wire_type_cases r) as [[-> ->]|[[-> ->]|[[-> ->]|Hr]]].
  - by case_match.
  - by case_match.
  - by case_match.
  - rewrite Hr. case_match; [|done]. split; [done|].
    intros ->. by rewrite andb_false_l in *.
Qed.

Lemma wire_restype_None (name : string) : wire_restype name py_None = py_None.
Proof. unfold wire_restype. by case_match. Qed.

Lemma callable_args (params : list pytype) (r : pytype) :
  ∃ r', PowerGridCore.Callable params r = PowerGridCore.GenericAlias (params ++ [r'])
        ∧ r' = (if decide (r = py_None) then py_NoneType else r)
        ∧ last (params ++ [r']) = Some r'
        ∧ take (length (params ++ [r']) - 1) (params ++ [r']) = params.
Proof.
  eexists. split_and!; [reflexivity|reflexivity|apply last_snoc|].
  rewrite length_app. simpl. rewrite Nat.add_sub. apply take_app_length.
Qed.

(** X5: for a declared name that does not start with an underscore and a
    return annotation other than [type(None)], [make_c_binding] on the method
    signature and one iteration of [__init__] on the corresponding
    [Callable] annotation leave the library in the same state, fail with the
    same exception when they fail, and otherwise yield a method and a functor
    with the same name, wire argument types and wire return type (a return
    annotation [None] included, through the [type(None)] workaround). *)
Theorem both_generators_derive_the_same_typing
    (func : pyfunc) (self : PowerGridCore_t) (w : world) :
  startswith (__name__ func) "_" = false →
  return_annotation func ≠ py_NoneType →
  let item := (__name__ func,
               PowerGridCore.Callable (drop 1 (parameters func).*2)
                                      (return_annotation func)) in
  (make_c_binding func w).2 = (PowerGridCore.__init__body self item w).2
  ∧ match (make_c_binding func w).1, (PowerGridCore.__init__body self item w).1 with
    | Ok f, Ok self' =>
        ∃ wf, attrs self' !! __name__ func = Some wf
              ∧ WrapperFunc._name wf = cb_name f
              ∧ WrapperFunc._c_argtypes wf = cb_c_argtypes f
              ∧ WrapperFunc._c_restype wf = cb_c_restype f
    | Raise e, Raise e' => e = e'
    | _, _ => False
    end.
Proof.
  intros Hn Hr. cbv zeta.
  destruct (callable_args (drop 1 (parameters func).*2) (return_annotation func))
    as (r' & -> & Hr' & Hlast & Htake).
  rewrite (__init__body_eq self _ _ r' w Hn Hlast), make_c_binding_eq. cbv zeta.
  rewrite Htake.
  assert ((if decide (wire_restype (__name__ func) r' = py_NoneType) then py_None
           else wire_restype (__name__ func) r')
          = wire_restype (__name__ func) (return_annotation func)) as ->.
  { subst r'. destruct (decide (return_annotation func = py_None)) as [->|Hnone].
    - rewrite decide_True by (by apply wire_restype_NoneType).
      by rewrite wire_restype_None.
    - rewrite decide_False; [done|]. by rewrite wire_restype_NoneType. }
  destruct (_CDLL w) as [c|]; [|done]. case_bool_decide; [|done].
  split; [done|]. simpl. eexists. split; [apply lookup_insert_eq|done].
Qed.

Lemma both_generators_derive_the_same_typing_witness :
  let func := PowerGridCore.clear_error in
  let item := (__name__ func,
               PowerGridCore.Callable (drop 1 (parameters func).*2)
                                      (return_annotation func)) in
  startswith (__name__ func) "_" = false
  ∧ return_annotation func ≠ py_NoneType
  ∧ (make_c_binding func demo_loaded).2
    = (PowerGridCore.__init__body demo_session item demo_loaded).2.
Proof.
  cbv zeta.
  assert (H1 : startswith (__name__ PowerGridCore.clear_error) "_" = false)
    by reflexivity.
  assert (H2 : return_annotation PowerGridCore.clear_error ≠ py_NoneType)
    by discriminate.
  split; [exact H1|]. split; [exact H2|].
  exact (proj1 (both_generators_derive_the_same_typing PowerGridCore.clear_error
                  demo_session demo_loaded H1 H2)).
Defined.

(** ** The typing on the library and the callables in hand *)

Lemma PGM_inj (a b : string) : PGM_ a = PGM_ b → a = b.
Proof. unfold PGM_. intros H. by injection H. Qed.

(** The library after the class body, and the class dictionary. *)
Lemma class_body_run (funcs : list pyfunc) (dict dict' : gmap string cbind_closure)
    (w w' : world) :
  PowerGridCore.class_body funcs dict w = (Ok dict', w') →
  _CDLL w' = (fun c => foldl (fun c b => configure_cdll b c) c
                             (Decorated ∘ closure_of <$> funcs)) <$> _CDLL w
  ∧ dict' = foldl (fun d func => <[__name__ func := closure_of func]> d) dict funcs.
Proof.
  revert dict w. induction funcs as [|func funcs IH]; intros dict w; simpl.
  - intros [= <- <-]. by destruct (_CDLL w).
  - unfold bind. rewrite make_c_binding_eq. cbv zeta.
    destruct (_CDLL w) as [c|]; [|done]. case_bool_decide; [|done].
    intros Hrest. apply IH in Hrest as [Hc Hd].
    split; [by rewrite Hc | exact Hd].
Qed.

(** The library after [__init__], and the instance dictionary. *)
Lemma __init__loop_run (items : list (string * PowerGridCore.annotation))
    (self self' : PowerGridCore_t) (w w' : world) :
  PowerGridCore.__init__loop items self w = (Ok self', w') →
  _CDLL w' = (fun c => foldl (fun c b => configure_cdll b c) c
                             (Functor <$> functors_for (_handle self) items))
             <$> _CDLL w
  ∧ attrs self' = foldl (fun a wf => <[WrapperFunc._name wf := wf]> a) (attrs self)
                        (functors_for (_handle self) items).
Proof.
  revert self w. induction items as [|[name function] items IH]; intros self w.
  - simpl. intros [= <- <-]. by destruct (_CDLL w).
  - cbn [PowerGridCore.__init__loop functors_for]. unfold bind at 1.
    destruct (startswith name "_") eqn:Hn.
    { rewrite __init__body_skip by done. simpl. apply IH. }
    destruct function as [args|cls].
    2:{ unfold PowerGridCore.__init__body. rewrite Hn. by unfold bind, lift. }
    destruct (last args) as [r|] eqn:Hr.
    2:{ unfold PowerGridCore.__init__body. rewrite Hn. unfold bind, lift. by rewrite Hr. }
    rewrite (__init__body_eq self name args r w Hn Hr). cbv zeta.
    destruct (_CDLL w) as [c|]; [|done]. case_bool_decide; [|done].
    intros Hrest. apply IH in Hrest as [Hc Hd].
    split; [by rewrite Hc | exact Hd].
Qed.

(** Assigning the typing of bindings with pairwise distinct names: each
    ends up on the library, and no other symbol is touched. *)
Lemma configure_cdll_other (b : binding) (c : CDLL) (sym : string) :
  sym ≠ PGM_ (b_name b) →
  argtypes (configure_cdll b c) !! sym = argtypes c !! sym
  ∧ restype (configure_cdll b c) !! sym = restype c !! sym.
Proof. intros Hne. simpl. by rewrite !lookup_insert_ne. Qed.

Lemma fold_configure_other (bs : list binding) (c : CDLL) (sym : string) :
  sym ∉ PGM_ ∘ b_name <$> bs →
  argtypes (foldl (fun c b => configure_cdll b c) c bs) !! sym = argtypes c !! sym
  ∧ restype (foldl (fun c b => configure_cdll b c) c bs) !! sym = restype c !! sym.
Proof.
  revert c. induction bs as [|b bs IH]; intros c Hsym; [done|].
  simpl in *. apply not_elem_of_cons in Hsym as [Hne Hsym].
  destruct (IH (configure_cdll b c) Hsym) as [-> ->].
  by apply configure_cdll_other.
Qed.

Lemma fold_configure_exports (bs : list binding) (c : CDLL) :
  exports (foldl (fun c b => configure_cdll b c) c bs) = exports c.
Proof. revert c. induction bs as [|b bs IH]; intros c; [done|]. simpl. by rewrite IH. Qed.

Lemma fold_configure_typed (bs : list binding) (c : CDLL) (b : binding) :
  NoDup (b_name <$> bs) → b ∈ bs →
  typed_as (foldl (fun c b => configure_cdll b c) c bs) b.
Proof.
  revert c. induction bs as [|b0 bs IH]; intros c Hnd Hb.
  { by apply elem_of_nil in Hb. }
  simpl in *. apply NoDup_cons in Hnd as [Hfresh Hnd].
  apply elem_of_cons in Hb as [->|Hb]; [|by apply IH].
  unfold typed_as.
  destruct (fold_configure_other bs (configure_cdll b0 c) (PGM_ (b_name b0)))
    as [-> ->].
  - intros Hin. apply Hfresh. apply list_elem_of_fmap in Hin as (b' & Heq & Hb').
    simpl in Heq. apply PGM_inj in Heq. rewrite Heq. by apply list_elem_of_fmap_2.
  - simpl. by rewrite !lookup_insert_eq.
Qed.

Lemma foldl_insert_lookup {A B} (key : A -> string) (val : A -> B)
    (l : list A) (d : gmap string B) (k : string) (v : B) :
  foldl (fun d x => <[key x := val x]> d) d l !! k = Some v →
  d !! k = Some v ∨ ∃ x, x ∈ l ∧ key x = k ∧ val x = v.
Proof.
  revert d. induction l as [|x l IH]; intros d; simpl; [by left|].
  intros Hk. apply IH in Hk as [Hk|(y & Hy & Hkey & Hval)].
  - destruct (decide (key x = k)) as [Heq|Hne].
    + rewrite <- Heq, lookup_insert_eq in Hk. injection Hk as <-.
      right. exists x. split; [apply elem_of_cons; by left|done].
    + rewrite lookup_insert_ne in Hk by done. by left.
  - right. exists y. split; [apply elem_of_cons; by right|done].
Qed.

Lemma construct_run {R : Runtime} (self : PowerGridCore_t) (w w1 : world) :
  PowerGridCore.construct w = (Ok self, w1) →
  _CDLL w1 = (fun c => foldl (fun c b => configure_cdll b c) c
                             (Functor <$> functors_for (_handle self)
                                                       PowerGridCore.__annotations__))
             <$> _CDLL w
  ∧ attrs self = foldl (fun a wf => <[WrapperFunc._name wf := wf]> a) ∅
                       (functors_for (_handle self) PowerGridCore.__annotations__).
Proof.
  unfold PowerGridCore.construct, bind. rewrite __new___eq.
  destruct (_CDLL w) as [c|] eqn:Hc; [|done]. case_bool_decide; [|done].
  destruct (foreign (calls w) "PGM_create_handle" []) as [h|]; [|done].
  unfold PowerGridCore.__init__. intros Hinit.
  pose proof (__init__loop_ok _ _ _ _ _ Hinit) as (Hh & _).
  apply __init__loop_run in Hinit as [Hc' Ha]. simpl in Hh, Hc', Ha.
  rewrite Hh. split; [by rewrite Hc', Hc | exact Ha].
Qed.

Lemma all_binding_names (handle : value) :
  b_name <$> ((Decorated ∘ closure_of <$> PowerGridCore.decorated)
              ++ (Functor <$> functors_for handle PowerGridCore.__annotations__))
  = (__name__ <$> PowerGridCore.decorated)
    ++ bound_names PowerGridCore.__annotations__.
Proof. reflexivity. Qed.

Lemma all_binding_names_NoDup :
  NoDup ((__name__ <$> PowerGridCore.decorated)
         ++ bound_names PowerGridCore.__annotations__).
Proof. apply (bool_decide_unpack _). vm_compute. exact I. Qed.

Lemma loader_symbols_apart (handle : value) (sym : string) :
  sym ∈ ["PGM_create_handle"; "PGM_destroy_handle"] →
  sym ∉ PGM_ ∘ b_name
        <$> ((Decorated ∘ closure_of <$> PowerGridCore.decorated)
             ++ (Functor <$> functors_for handle PowerGridCore.__annotations__)).
Proof.
  intros Hsym. rewrite list_fmap_compose, all_binding_names.
  apply elem_of_cons in Hsym as [->|Hsym];
    [|apply elem_of_cons in Hsym as [->|Hsym]; [|by apply elem_of_nil in Hsym]];
    apply (bool_decide_unpack _); vm_compute; exact I.
Qed.

(** After a successful import: the library [_CDLL] names, the class
    dictionary, the session's functors, and the typing of all of them. *)
Lemma import_run {R : Runtime} (m : module_globals) (w w' : world) :
  import_module w = (Ok m, w') →
  ∃ c, _CDLL w' = Some c
       ∧ PowerGridCore_dict m
         = foldl (fun d func => <[__name__ func := closure_of func]> d) ∅
                 PowerGridCore.decorated
       ∧ attrs (power_grid_core m)
         = foldl (fun a wf => <[WrapperFunc._name wf := wf]> a) ∅
                 (functors_for (_handle (power_grid_core m))
                               PowerGridCore.__annotations__)
       ∧ (∀ b, b ∈ (Decorated ∘ closure_of <$> PowerGridCore.decorated)
                   ++ (Functor <$> functors_for (_handle (power_grid_core m))
                                                PowerGridCore.__annotations__) →
               typed_as c b)
       ∧ argtypes c !! "PGM_create_handle" = Some []
       ∧ restype c !! "PGM_create_handle" = Some HandlePtr
       ∧ argtypes c !! "PGM_destroy_handle" = Some [HandlePtr]
       ∧ restype c !! "PGM_destroy_handle" = Some py_None.
Proof.
  unfold import_module. unfold bind at 1. rewrite _load_core_eq.
  destruct (shared_libs w !! dll_file w) as [syms|] eqn:Hlib; [|done]. cbv zeta.
  case_bool_decide as Hcreate; [|done]. case_bool_decide as Hdestroy; [|done].
  set (c0 := mkCDLL _ _ _). set (w2 := log_sig_write _ _).
  unfold bind at 1. unfold update at 1. unfold bind at 1.
  destruct (PowerGridCore.class_body PowerGridCore.decorated ∅ (set_CDLL (Some c0) w2))
    as [[dict|e] w3] eqn:Hbody; [|done].
  unfold bind at 1.
  destruct (PowerGridCore.construct w3) as [[instance|e] w4] eqn:Hcons; [|done].
  intros [= <- <-]. simpl.
  apply class_body_run in Hbody as [Hc3 Hdict].
  apply construct_run in Hcons as [Hc4 Hattrs].
  assert (_CDLL w4
          = Some (foldl (fun c b => configure_cdll b c) c0
                    ((Decorated ∘ closure_of <$> PowerGridCore.decorated)
                     ++ (Functor <$> functors_for (_handle instance)
                                                  PowerGridCore.__annotations__))))
    as Hc.
  { rewrite Hc4, Hc3, foldl_app. reflexivity. }
  eexists. split; [exact Hc|]. split; [exact Hdict|]. split; [exact Hattrs|].
  split.
  { intros b Hb. apply fold_configure_typed; [|exact Hb].
    rewrite all_binding_names. apply all_binding_names_NoDup. }
  destruct (fold_configure_other _ c0 "PGM_create_handle"
              (loader_symbols_apart (_handle instance) "PGM_create_handle"
                 ltac:(set_solver))) as [-> ->].
  destruct (fold_configure_other _ c0 "PGM_destroy_handle"
              (loader_symbols_apart (_handle instance) "PGM_destroy_handle"
                 ltac:(set_solver))) as [-> ->].
  done.
Qed.

(** X6: after a successful import, every callable in hand carries exactly
    the typing that is configured on the library for its symbol: for each
    method of the class dictionary and each functor of the session, stored
    under its own name, [argtypes] of [PGM_<name>] is its wire argument types
    (after [HandlePtr], unless the name contains "destroy") and [restype] is
    its wire return type; and the typing the loader gave the two handle entry
    points is still in place. *)
Theorem configured_typing_matches_the_callables {R : Runtime}
    (m : module_globals) (w w' : world) :
  import_module w = (Ok m, w') →
  ∃ c, _CDLL w' = Some c
       ∧ (∀ name f, PowerGridCore_dict m !! name = Some f →
            cb_name f = name
            ∧ argtypes c !! PGM_ name = Some (native_argtypes name (cb_c_argtypes f))
            ∧ restype c !! PGM_ name = Some (cb_c_restype f))
       ∧ (∀ name wf, attrs (power_grid_core m) !! name = Some wf →
            WrapperFunc._name wf = name
            ∧ argtypes c !! PGM_ name
              = Some (native_argtypes name (WrapperFunc._c_argtypes wf))
            ∧ restype c !! PGM_ name = Some (WrapperFunc._c_restype wf))
       ∧ argtypes c !! "PGM_create_handle" = Some []
       ∧ restype c !! "PGM_create_handle" = Some HandlePtr
       ∧ argtypes c !! "PGM_destroy_handle" = Some [HandlePtr]
       ∧ restype c !! "PGM_destroy_handle" = Some py_None.
Proof.
  intros Himp.
  destruct (import_run m w w' Himp) as (c & Hc & Hdict & Hattrs & Htyped & Hloader).
  exists c. split; [exact Hc|]. split_and!; try apply Hloader.
  - intros name f Hf. rewrite Hdict in Hf.
    apply foldl_insert_lookup in Hf as [Hf|(func & Hfunc & <- & <-)].
    { by rewrite lookup_empty in Hf. }
    split; [done|]. apply (Htyped (Decorated (closure_of func))).
    apply elem_of_app. left. by apply (list_elem_of_fmap_2 (Decorated ∘ closure_of)).
  - intros name wf Hwf. rewrite Hattrs in Hwf.
    apply foldl_insert_lookup in Hwf as [Hwf|(wf' & Hwf' & <- & <-)].
    { by rewrite lookup_empty in Hwf. }
    split; [done|]. apply (Htyped (Functor wf')).
    apply elem_of_app. right. by apply list_elem_of_fmap_2.
Qed.

Lemma configured_typing_matches_the_callables_witness :
  ∃ m w', import_module (R := demo_runtime) demo_world = (Ok m, w')
          ∧ ∃ c, _CDLL w' = Some c
                 ∧ argtypes c !! "PGM_create_handle" = Some [].
Proof.
  destruct (import_total (R := demo_runtime) demo_world demo_symbols demo_handle)
    as (m & w' & Himp).
  - reflexivity.
  - apply (bool_decide_unpack _). vm_compute. exact I.
  - reflexivity.
  - exists m, w'. split; [exact Himp|].
    destruct (configured_typing_matches_the_callables (R := demo_runtime) m
                demo_world w' Himp) as (c & Hc & _ & _ & Hcreate & _).
    exists c. split; [exact Hc | exact Hcreate].
Defined.

(** ** A further session *)

Lemma configure_cdll_id (b : binding) (c : CDLL) :
  typed_as c b → configure_cdll b c = c.
Proof.
  intros [Ha Hr]. destruct c as [ex at_ rt]. unfold configure_cdll. simpl in *.
  by rewrite (insert_id _ _ _ Ha), (insert_id _ _ _ Hr).
Qed.

Lemma typed_functors_any_handle (c : CDLL) (h h' : value)
    (items : list (string * PowerGridCore.annotation)) :
  Forall (fun wf => typed_as c (Functor wf)) (functors_for h items) →
  Forall (fun wf => typed_as c (Functor wf)) (functors_for h' items).
Proof.
  induction items as [|[name function] items IH]; simpl; [done|].
  destruct (startswith name "_"); [done|].
  destruct function as [args|cls]; [|done].
  destruct (last args) as [r|]; [|done].
  intros [Hhd Htl]%Forall_cons. apply Forall_cons. split; [exact Hhd | by apply IH].
Qed.

Lemma __init__loop_idem (items : list (string * PowerGridCore.annotation))
    (self : PowerGridCore_t) (w : world) (c : CDLL) :
  _CDLL w = Some c →
  Forall (fun wf => typed_as c (Functor wf)) (functors_for (_handle self) items) →
  _CDLL (PowerGridCore.__init__loop items self w).2 = Some c.
Proof.
  revert self w. induction items as [|[name function] items IH]; intros self w Hc Hty.
  - done.
  - cbn [PowerGridCore.__init__loop functors_for] in *. unfold bind at 1.
    destruct (startswith name "_") eqn:Hn.
    { rewrite __init__body_skip by done. simpl. by apply IH. }
    destruct function as [args|cls].
    2:{ unfold PowerGridCore.__init__body. rewrite Hn. by unfold bind, lift. }
    destruct (last args) as [r|] eqn:Hr.
    2:{ unfold PowerGridCore.__init__body. rewrite Hn. unfold bind, lift. by rewrite Hr. }
    apply Forall_cons in Hty as [Hhd Htl].
    rewrite (__init__body_eq self name args r w Hn Hr). cbv zeta. rewrite Hc.
    case_bool_decide; [|done].
    apply IH; [|exact Htl].
    change (_CDLL (configured _ _ _ c w))
      with (Some (configure_cdll (Functor (functor_for (_handle self) name args r)) c)).
    by rewrite configure_cdll_id.
Qed.

(** X7: constructing a further session after a successful import changes
    no typing: whatever the outcome of the construction, the library [_CDLL]
    names afterwards is the one it named before, with the same [argtypes] and
    [restype] on every symbol ([__init__] assigns again what is already
    there). *)
Theorem further_session_keeps_the_typing {R : Runtime}
    (m : module_globals) (w w1 w2 : world) :
  import_module w = (Ok m, w1) →
  _CDLL w2 = _CDLL w1 →
  _CDLL (PowerGridCore.construct w2).2 = _CDLL w1.
Proof.
  intros Himp Hsame.
  destruct (import_run m w w1 Himp) as (c & Hc & _ & _ & Htyped & _).
  rewrite Hc in *. unfold PowerGridCore.construct, bind. rewrite __new___eq, Hsame.
  case_bool_decide; [|done].
  destruct (foreign (calls w2) "PGM_create_handle" []) as [h|]; [|done].
  unfold PowerGridCore.__init__. apply __init__loop_idem; [done|].
  apply (typed_functors_any_handle c (_handle (power_grid_core m))).
  apply Forall_forall. intros wf Hwf. apply Htyped.
  apply elem_of_app. right. by apply list_elem_of_fmap_2.
Qed.

Lemma further_session_keeps_the_typing_witness :
  ∃ m w1, import_module (R := demo_runtime) demo_world = (Ok m, w1)
          ∧ _CDLL (PowerGridCore.construct (R := demo_runtime) w1).2 = _CDLL w1.
Proof.
  destruct (import_total (R := demo_runtime) demo_world demo_symbols demo_handle)
    as (m & w1 & Himp).
  - reflexivity.
  - apply (bool_decide_unpack _). vm_compute. exact I.
  - reflexivity.
  - exists m, w1. split; [exact Himp|].
    exact (further_session_keeps_the_typing (R := demo_runtime) m demo_world w1 w1
             Himp eq_refl).
Defined.

(** ** When the import succeeds *)

Lemma class_body_exports (funcs : list pyfunc) (dict dict' : gmap string cbind_closure)
    (w w' : world) (c : CDLL) :
  PowerGridCore.class_body funcs dict w = (Ok dict', w') → _CDLL w = Some c →
  Forall (fun func => PGM_ (__name__ func) ∈ exports c) funcs.
Proof.
  revert dict w c. induction funcs as [|func funcs IH]; intros dict w c; simpl.
  - intros _ _. apply Forall_nil_2.
  - unfold bind. rewrite make_c_binding_eq. cbv zeta. intros Hrest Hc.
    rewrite Hc in Hrest. case_bool_decide as Hin; [|done].
    apply Forall_cons. split; [exact Hin|].
    eapply (IH _ _ (mkCDLL (exports c) _ _)) in Hrest; [exact Hrest | reflexivity].
Qed.

Lemma __init__loop_exports (items : list (string * PowerGridCore.annotation))
    (self self' : PowerGridCore_t) (w w' : world) (c : CDLL) :
  PowerGridCore.__init__loop items self w = (Ok self', w') → _CDLL w = Some c →
  Forall (fun name => PGM_ name ∈ exports c) (bound_names items).
Proof.
  revert self w c. induction items as [|[name function] items IH]; intros self w c.
  - intros _ _. apply Forall_nil_2.
  - cbn [PowerGridCore.__init__loop]. rewrite bound_names_cons. unfold bind at 1.
    destruct (startswith name "_") eqn:Hn.
    { rewrite __init__body_skip by done. simpl. apply IH. }
    destruct function as [args|cls].
    2:{ unfold PowerGridCore.__init__body. rewrite Hn. by unfold bind, lift. }
    destruct (last args) as [r|] eqn:Hr.
    2:{ unfold PowerGridCore.__init__body. rewrite Hn. unfold bind, lift. by rewrite Hr. }
    rewrite (__init__body_eq self name args r w Hn Hr). cbv zeta.
    intros Hrest Hc. rewrite Hc in Hrest. case_bool_decide as Hin; [|done].
    apply Forall_cons. split; [exact Hin|].
    eapply (IH _ _ (mkCDLL (exports c) _ _)) in Hrest; [exact Hrest | reflexivity].
Qed.

(** X8: the import succeeds exactly when the library file of the platform
    can be loaded, it exports [PGM_create_handle], [PGM_destroy_handle] and
    the symbol [PGM_<name>] of every declared operation, and the engine's
    [PGM_create_handle()] returns; a library that lacks any one of these
    symbols makes the import fail. *)
Theorem import_succeeds_iff_library_is_complete {R : Runtime} (w : world) :
  (∃ m w', import_module w = (Ok m, w'))
  ↔ ∃ syms handle,
      shared_libs w !! dll_file w = Some syms
      ∧ Forall (fun sym => sym ∈ syms) configured_symbols
      ∧ foreign (calls w) "PGM_create_handle" [] = Ok handle.
Proof.
  split.
  2:{ intros (syms & handle & Hlib & Hsyms & Hh). by eapply import_total. }
  intros (m & w' & Himp).
  destruct (import_ok m w w' Himp) as (_ & _ & Hh & _).
  revert Himp. unfold import_module. unfold bind at 1. rewrite _load_core_eq.
  destruct (shared_libs w !! dll_file w) as [syms|] eqn:Hlib; [|done]. cbv zeta.
  case_bool_decide as Hcreate; [|done]. case_bool_decide as Hdestroy; [|done].
  set (c0 := mkCDLL _ _ _). set (w2 := log_sig_write _ _).
  unfold bind at 1. unfold update at 1. unfold bind at 1.
  destruct (PowerGridCore.class_body PowerGridCore.decorated ∅ (set_CDLL (Some c0) w2))
    as [[dict|e] w3] eqn:Hbody; [|done].
  unfold bind at 1.
  destruct (PowerGridCore.construct w3) as [[instance|e] w4] eqn:Hcons; [|done].
  intros _.
  pose proof (proj2 (proj2 (class_body_frame PowerGridCore.decorated ∅))
                    (set_CDLL (Some c0) w2)) as Hlib3.
  rewrite Hbody in Hlib3. unfold same_library in Hlib3. simpl in Hlib3.
  apply (class_body_exports _ _ _ _ _ c0) in Hbody; [|done].
  destruct (_CDLL w3) as [c3|] eqn:Hc3; [|done]. injection Hlib3 as Hexp3.
  revert Hcons. unfold PowerGridCore.construct, bind. rewrite __new___eq, Hc3.
  case_bool_decide; [|done].
  destruct (foreign (calls w3) "PGM_create_handle" []) as [h|]; [|done].
  unfold PowerGridCore.__init__. intros Hinit.
  apply (__init__loop_exports _ _ _ _ _ c3) in Hinit; [|done].
  rewrite Hexp3 in Hinit.
  exists syms, (_handle (power_grid_core m)). split; [done|]. split; [|exact Hh].
  unfold configured_symbols. apply Forall_cons. split; [exact Hcreate|].
  apply Forall_cons. split; [exact Hdestroy|].
  apply Forall_app. split; apply Forall_fmap; [exact Hbody | exact Hinit].
Qed.

(** ** Wire types *)

Lemma wire_type_not_host (x : pytype) :
  (wire_type x ∉ [py_str; py_int; py_float])
  ∧ wire_type (wire_type x) = wire_type x.
Proof.
  destruct (wire_type_cases x) as [[-> ->]|[[-> ->]|[[-> ->]|Hx]]];
    try (split; [rewrite !not_elem_of_cons; split_and!; try done;
                 apply not_elem_of_nil | by vm_compute]).
  rewrite Hx. split; [|exact Hx].
  rewrite !not_elem_of_cons. unfold wire_type in Hx.
  split_and!; try apply not_elem_of_nil; intros ->; by vm_compute in Hx.
Qed.

Lemma wire_restype_not_host (name : string) (r : pytype) :
  wire_restype name r ∉ [py_str; py_int; py_float].
Proof.
  unfold wire_restype. case_match; [|apply wire_type_not_host].
  rewrite !not_elem_of_cons. split_and!; try done. apply not_elem_of_nil.
Qed.

(** Mapped parameter types that are host or ctypes types are ctypes types,
    and so is [HandlePtr] in front of them. *)
Lemma native_argtypes_ctypes (name : string) (params : list pytype) :
  Forall (fun t => t ∉ [py_None; py_NoneType; py_empty]) params →
  Forall (fun t => t ∉ [py_str; py_int; py_float; py_None; py_NoneType; py_empty])
         (native_argtypes name (wire_type <$> params)).
Proof.
  intros Hparams. unfold native_argtypes.
  assert (Forall (fun t => t ∉ [py_str; py_int; py_float; py_None; py_NoneType;
                                py_empty])
                 (wire_type <$> params)) as Hall.
  { apply Forall_fmap. eapply Forall_impl; [exact Hparams|].
    intros t Ht. simpl. destruct (wire_type_not_host t) as [Hhost _].
    rewrite !not_elem_of_cons in *. destruct Hhost as (H1 & H2 & H3 & _).
    destruct Ht as (H4 & H5 & H6 & _).
    assert (∀ y, y ∈ [py_None; py_NoneType; py_empty] → wire_type t = y → t = y)
      as Hback.
    { intros y Hy Heq.
      destruct (wire_type_cases t) as [[-> Hw]|[[-> Hw]|[[-> Hw]|Hw]]];
        rewrite Hw in Heq; subst y; try done;
        repeat (apply elem_of_cons in Hy as [Hy|Hy]; [discriminate Hy|]);
        by apply elem_of_nil in Hy. }
    split_and!; try done; try apply not_elem_of_nil.
    - intros Heq. apply H4, Hback; [|done]. set_solver.
    - intros Heq. apply H5, Hback; [|done]. set_solver.
    - intros Heq. apply H6, Hback; [|done]. set_solver. }
  destruct (str_in "destroy" name); [exact Hall|].
  apply Forall_cons. split; [|exact Hall].
  rewrite !not_elem_of_cons. split_and!; try done. apply not_elem_of_nil.
Qed.

Ltac all_types_apart :=
  repeat (apply Forall_cons_2;
          [rewrite !not_elem_of_cons; split_and!; [done..|apply not_elem_of_nil]|]);
  apply Forall_nil_2.

(** Every declared parameter is annotated with a host type or a ctypes
    type. *)
Lemma declared_parameters_are_types :
  Forall (fun func => Forall (fun t => t ∉ [py_None; py_NoneType; py_empty])
                             (drop 1 (parameters func).*2))
         PowerGridCore.decorated
  ∧ Forall (fun item =>
              ∀ args, item.2 = PowerGridCore.GenericAlias args →
                      Forall (fun t => t ∉ [py_None; py_NoneType; py_empty])
                             (take (length args - 1) args))
           PowerGridCore.__annotations__.
Proof.
  split.
  - unfold PowerGridCore.decorated.
    repeat (apply Forall_cons_2; [simpl; all_types_apart|]). apply Forall_nil_2.
  - unfold PowerGridCore.__annotations__.
    apply Forall_cons_2; [by intros args|].
    repeat (apply Forall_cons_2;
            [intros args [= <-]; simpl; all_types_apart|]).
    apply Forall_nil_2.
Qed.

(** ** What generating and importing never do *)

(** X10: generating bindings makes no foreign call and opens no library,
    whether it succeeds or fails: neither [make_c_binding] nor [__init__]
    does; and a successful import has made exactly one foreign call,
    [PGM_create_handle()]. *)
Theorem generation_makes_no_foreign_call {R : Runtime} (w : world) :
  (∀ func, calls (make_c_binding func w).2 = calls w
           ∧ dlopens (make_c_binding func w).2 = dlopens w)
  ∧ (∀ self, calls (PowerGridCore.__init__ self w).2 = calls w
             ∧ dlopens (PowerGridCore.__init__ self w).2 = dlopens w)
  ∧ (∀ m w', import_module w = (Ok m, w') →
       calls w' = calls w ++ [("PGM_create_handle", [])]).
Proof.
  split_and!.
  - intros func. split; apply make_c_binding_frame.
  - intros self. unfold PowerGridCore.__init__. split; apply __init__loop_frame.
  - intros m w' Himp. by destruct (import_ok m w w' Himp) as (_ & Hcalls & _).
Qed.

(** X11: when the foreign call itself raises, the binding raises the same
    exception, for a text return type as for any other; no conversion of a
    result is attempted, and the call stays in the trace. *)
Theorem foreign_exception_propagates {R : Runtime}
    (b : binding) (self : PowerGridCore_t) (args ins : list value)
    (f : string) (e : exn) (w : world) :
  marshal_all (zip args (b_argtypes b)) = Ok ins →
  (b_cfunc b w).1 = Ok f →
  foreign (calls w) f (handle_prefix (b_name b) (b_handle b self) ++ ins) = Raise e →
  invoke b self args w
  = (Raise e, log_call (f, handle_prefix (b_name b) (b_handle b self) ++ ins) w).
Proof. intros Hins Hf He. rewrite invoke_eq, Hins, Hf. cbv zeta. by rewrite He. Qed.

Lemma foreign_exception_propagates_witness :
  let b := Decorated demo_meta_component_name in
  let inputs := [demo_handle; VBytes (String.list_byte_of_string "input"); VInt 2] in
  (b_cfunc b demo_loaded).1 = Ok "PGM_meta_component_name"
  ∧ foreign (Runtime := demo_failing_runtime) (calls demo_loaded)
            "PGM_meta_component_name" inputs = Raise (ForeignError 1)
  ∧ invoke (R := demo_failing_runtime) b demo_session [VStr "input"; VInt 2] demo_loaded
    = (Raise (ForeignError 1), log_call ("PGM_meta_component_name", inputs) demo_loaded).
Proof.
  cbv zeta.
  assert (H1 : marshal_all (R := demo_failing_runtime)
                 (zip [VStr "input"; VInt 2]
                      (b_argtypes (Decorated demo_meta_component_name)))
               = Ok [VBytes (String.list_byte_of_string "input"); VInt 2])
    by reflexivity.
  assert (H2 : (b_cfunc (Decorated demo_meta_component_name) demo_loaded).1
               = Ok "PGM_meta_component_name") by (by vm_compute).
  assert (H3 : foreign (Runtime := demo_failing_runtime) (calls demo_loaded)
                 "PGM_meta_component_name"
                 (handle_prefix (b_name (Decorated demo_meta_component_name))
                    (b_handle (Decorated demo_meta_component_name) demo_session)
                  ++ [VBytes (String.list_byte_of_string "input"); VInt 2])
               = Raise (ForeignError 1)) by reflexivity.
  split; [exact H2|]. split; [exact H3|].
  exact (foreign_exception_propagates (R := demo_failing_runtime)
           (Decorated demo_meta_component_name) demo_session
           [VStr "input"; VInt 2] _ _ _ demo_loaded H1 H2 H3).
Defined.

(** ** What an import assigns *)

Lemma class_body_writes (funcs : list pyfunc) (dict dict' : gmap string cbind_closure)
    (w w' : world) :
  PowerGridCore.class_body funcs dict w = (Ok dict', w') →
  sig_writes w'
  = sig_writes w ++ ((Decorated ∘ closure_of <$> funcs) ≫= binding_writes).
Proof.
  revert dict w. induction funcs as [|func funcs IH]; intros dict w; simpl.
  - intros [= <- <-]. by rewrite app_nil_r.
  - unfold bind. rewrite make_c_binding_eq. cbv zeta.
    destruct (_CDLL w) as [c|]; [|done]. case_bool_decide; [|done].
    intros Hrest. apply IH in Hrest. rewrite Hrest, configured_sig_writes.
    by rewrite <- app_assoc.
Qed.

Lemma __init__loop_writes (items : list (string * PowerGridCore.annotation))
    (self self' : PowerGridCore_t) (w w' : world) :
  PowerGridCore.__init__loop items self w = (Ok self', w') →
  sig_writes w'
  = sig_writes w
    ++ ((Functor <$> functors_for (_handle self) items) ≫= binding_writes).
Proof.
  revert self w. induction items as [|[name function] items IH]; intros self w.
  - simpl. intros [= <- <-]. by rewrite app_nil_r.
  - cbn [PowerGridCore.__init__loop functors_for]. unfold bind at 1.
    destruct (startswith name "_") eqn:Hn.
    { rewrite __init__body_skip by done. simpl. apply IH. }
    destruct function as [args|cls].
    2:{ unfold PowerGridCore.__init__body. rewrite Hn. by unfold bind, lift. }
    destruct (last args) as [r|] eqn:Hr.
    2:{ unfold PowerGridCore.__init__body. rewrite Hn. unfold bind, lift. by rewrite Hr. }
    rewrite (__init__body_eq self name args r w Hn Hr). cbv zeta.
    destruct (_CDLL w) as [c|]; [|done]. case_bool_decide; [|done].
    intros Hrest. apply IH in Hrest. rewrite Hrest, configured_sig_writes.
    by rewrite <- app_assoc.
Qed.

Lemma construct_writes {R : Runtime} (self : PowerGridCore_t) (w w1 : world) :
  PowerGridCore.construct w = (Ok self, w1) →
  sig_writes w1
  = sig_writes w
    ++ ((Functor <$> functors_for (_handle self) PowerGridCore.__annotations__)
          ≫= binding_writes).
Proof.
  unfold PowerGridCore.construct, bind. rewrite __new___eq.
  destruct (_CDLL w) as [c|]; [|done]. case_bool_decide; [|done].
  destruct (foreign (calls w) "PGM_create_handle" []) as [h|]; [|done].
  unfold PowerGridCore.__init__. intros Hinit.
  pose proof (__init__loop_ok _ _ _ _ _ Hinit) as (Hh & _).
  apply __init__loop_writes in Hinit. rewrite Hinit, Hh. done.
Qed.

Lemma import_writes {R : Runtime} (m : module_globals) (w w' : world) :
  import_module w = (Ok m, w') →
  sig_writes w'
  = sig_writes w
    ++ loader_writes
    ++ (import_bindings (_handle (power_grid_core m)) ≫= binding_writes).
Proof.
  unfold import_module. unfold bind at 1. rewrite _load_core_eq.
  destruct (shared_libs w !! dll_file w) as [syms|]; [|done]. cbv zeta.
  case_bool_decide; [|done]. case_bool_decide; [|done].
  set (c0 := mkCDLL _ _ _). set (w2 := log_sig_write _ _).
  unfold bind at 1. unfold update at 1. unfold bind at 1.
  destruct (PowerGridCore.class_body PowerGridCore.decorated ∅ (set_CDLL (Some c0) w2))
    as [[dict|e] w3] eqn:Hbody; [|done].
  unfold bind at 1.
  destruct (PowerGridCore.construct w3) as [[instance|e] w4] eqn:Hcons; [|done].
  intros [= <- <-]. cbn [power_grid_core].
  apply class_body_writes in Hbody. apply construct_writes in Hcons.
  rewrite Hcons, Hbody. unfold import_bindings. rewrite bind_app.
  subst w2. cbn [sig_writes set_CDLL log_sig_write log_dlopen].
  unfold loader_writes. rewrite <- !app_assoc. done.
Qed.

Lemma functors_for_elem (handle : value)
    (items : list (string * PowerGridCore.annotation)) (wf : WrapperFunc.t) :
  wf ∈ functors_for handle items →
  ∃ name args r,
    (name, PowerGridCore.GenericAlias args) ∈ items
    ∧ startswith name "_" = false ∧ last args = Some r
    ∧ wf = functor_for handle name args r.
Proof.
  induction items as [|[name function] items IH]; simpl.
  { by intros Hin%elem_of_nil. }
  assert (wf ∈ functors_for handle items →
          ∃ name0 args r,
            (name0, PowerGridCore.GenericAlias args) ∈ (name, function) :: items
            ∧ startswith name0 "_" = false ∧ last args = Some r
            ∧ wf = functor_for handle name0 args r) as Hlater.
  { intros Hin. destruct (IH Hin) as (n & a & r & Hi & Hrest).
    exists n, a, r. split; [apply elem_of_cons; by right | exact Hrest]. }
  destruct (startswith name "_") eqn:Hn; [exact Hlater|].
  destruct function as [args|cls]; [|exact Hlater].
  destruct (last args) as [r|] eqn:Hr; [|exact Hlater].
  intros [->|Hin]%elem_of_cons; [|by apply Hlater].
  exists name, args, r. split; [apply elem_of_cons; by left | done].
Qed.

Lemma binding_writes_elem (bs : list binding) (sw : sig_write) :
  sw ∈ bs ≫= binding_writes →
  ∃ b, b ∈ bs
       ∧ (sw = W_argtypes (PGM_ (b_name b)) (native_argtypes (b_name b) (b_argtypes b))
          ∨ sw = W_restype (PGM_ (b_name b)) (b_restype b)).
Proof.
  intros (b & Hsw & Hb)%list_elem_of_bind. exists b. split; [exact Hb|].
  unfold binding_writes in Hsw.
  apply elem_of_cons in Hsw as [->|Hsw]; [by left|].
  apply elem_of_cons in Hsw as [->|Hsw]; [by right|]. by apply elem_of_nil in Hsw.
Qed.

Lemma import_bindings_elem (handle : value) (b : binding) :
  b ∈ import_bindings handle →
  (∃ func, func ∈ PowerGridCore.decorated ∧ b = Decorated (closure_of func))
  ∨ (∃ name args r,
       (name, PowerGridCore.GenericAlias args) ∈ PowerGridCore.__annotations__
       ∧ startswith name "_" = false ∧ last args = Some r
       ∧ b = Functor (functor_for handle name args r)).
Proof.
  unfold import_bindings. intros [Hb|Hb]%elem_of_app.
  - left. apply list_elem_of_fmap in Hb as (func & -> & Hfunc). by exists func.
  - right. apply list_elem_of_fmap in Hb as (wf & -> & Hwf).
    apply functors_for_elem in Hwf as (name & args & r & Hi & Hn & Hr & ->).
    by exists name, args, r.
Qed.



(** ** The inputs of a call and the argument types on the library *)



(** ** No host type is assigned as a wire type *)

(** X9: what [make_c_binding] assigns on the library is never a host
    type.  When it returns for a function whose parameters are annotated
    with host types or ctypes types, [argtypes] and [restype] of the
    function's symbol are assigned on the library, no assigned argument type
    is [str], [int], [float], [None], [type(None)] or a missing annotation,
    and the assigned return type is not [str], [int] or [float].  The same
    holds of every [argtypes] and [restype] assignment a successful import
    makes, by the loader and by both generators. *)
Theorem configured_types_are_never_host_types {R : Runtime} :
  (∀ func w f w',
     make_c_binding func w = (Ok f, w') →
     Forall (fun t => t ∉ [py_None; py_NoneType; py_empty])
            (drop 1 (parameters func).*2) →
     ∃ c tys ty,
       _CDLL w' = Some c
       ∧ argtypes c !! PGM_ (__name__ func) = Some tys
       ∧ restype c !! PGM_ (__name__ func) = Some ty
       ∧ sig_writes w'
         = sig_writes w ++ [W_argtypes (PGM_ (__name__ func)) tys;
                            W_restype (PGM_ (__name__ func)) ty]
       ∧ Forall (fun t => t ∉ [py_str; py_int; py_float; py_None; py_NoneType;
                               py_empty]) tys
       ∧ (ty ∉ [py_str; py_int; py_float]))
  ∧ (∀ w m w',
       import_module w = (Ok m, w') →
       ∃ ws, sig_writes w' = sig_writes w ++ ws
             ∧ (∀ sym tys, W_argtypes sym tys ∈ ws →
                  Forall (fun t => t ∉ [py_str; py_int; py_float; py_None;
                                        py_NoneType; py_empty]) tys)
             ∧ (∀ sym ty, W_restype sym ty ∈ ws → ty ∉ [py_str; py_int; py_float])).
Proof.
  split.
  - intros func w f w'. rewrite make_c_binding_eq. cbv zeta.
    destruct (_CDLL w) as [c|]; [|done]. case_bool_decide; [|done].
    intros [= <- <-] Hparams. eexists _, _, _. split_and!.
    + reflexivity.
    + simpl. apply lookup_insert_eq.
    + simpl. apply lookup_insert_eq.
    + by rewrite configured_sig_writes.
    + by apply native_argtypes_ctypes.
    + apply wire_restype_not_host.
  - intros w m w' Himp. eexists. split; [exact (import_writes m w w' Himp)|].
    destruct declared_parameters_are_types as [Hdec Hann].
    rewrite Forall_forall in Hdec. rewrite Forall_forall in Hann.
    split.
    + intros sym tys [Hsw|Hsw]%elem_of_app.
      { unfold loader_writes in Hsw.
        repeat (apply elem_of_cons in Hsw as [Hsw|Hsw];
                [try discriminate Hsw; injection Hsw as -> ->; all_types_apart|]).
        by apply elem_of_nil in Hsw. }
      apply binding_writes_elem in Hsw as (b & Hb & [Hsw|Hsw]); [|discriminate Hsw].
      injection Hsw as -> ->.
      apply import_bindings_elem in Hb
        as [(func & Hfunc & ->)|(name & args & r & Hi & _ & _ & ->)].
      * apply native_argtypes_ctypes, Hdec, Hfunc.
      * apply native_argtypes_ctypes. by apply (Hann _ Hi).
    + intros sym ty [Hsw|Hsw]%elem_of_app.
      { unfold loader_writes in Hsw.
        repeat (apply elem_of_cons in Hsw as [Hsw|Hsw];
                [first [discriminate Hsw
                       |injection Hsw as -> ->; rewrite !not_elem_of_cons;
                        split_and!; [done..|apply not_elem_of_nil]]|]).
        by apply elem_of_nil in Hsw. }
      apply binding_writes_elem in Hsw as (b & Hb & [Hsw|Hsw]); [discriminate Hsw|].
      injection Hsw as -> ->.
      apply import_bindings_elem in Hb
        as [(func & Hfunc & ->)|(name & args & r & Hi & _ & _ & ->)].
      * apply wire_restype_not_host.
      * simpl. case_decide.
        -- rewrite !not_elem_of_cons. split_and!; [done..|apply not_elem_of_nil].
        -- apply wire_restype_not_host.
Qed.

(** ** Typing is configured once per import *)





